(** * PicoTrafficRTOS: the traffic-light state shared by the FreeRTOS tasks

    A shallow embedding of [PicoFreeRTOS.c], with the RGB driver
    [lib/rgb.c] and the OLED helpers [lib/oledgfx.c].  The four module-level
    [volatile] variables become one record that every task body receives
    and returns; what a task sends to a peripheral driver is recorded as
    a list of driver calls.  The endless [while] loop of a task is
    unrolled one iteration at a time, and the tasks are interleaved by a
    list of scheduling actions. *)

From Stdlib Require Import ZArith Lia List String Bool.
Import ListNotations.

Local Open Scope Z_scope.

(** ** Configuration constants (the [#define]s of the source) *)

Definition SEMAPHORE_GREEN_DURATION_SEC : Z := 9.
Definition SEMAPHORE_RED_DURATION_SEC : Z := 6.
Definition SEMAPHORE_YELLOW_DURATION_SEC : Z := 3.
Definition SEMAPHORE_DURATION_TIMEOUT : Z := 0.

Definition SEMAPHORE_GREEN_STATE : Z := 1.
Definition SEMAPHORE_RED_STATE : Z := 2.
Definition SEMAPHORE_YELLOW_STATE : Z := 0.

Definition SEMAPHORE_LED_COLOR_RED : Z := 0.
Definition SEMAPHORE_LED_COLOR_GREEN : Z := 1.
Definition SEMAPHORE_LED_COLOR_YELLOW : Z := 3.

Definition SEMAPHORE_DAILY_MODE : Z := 0.
Definition SEMAPHORE_NIGHT_MODE : Z := 1.

Create HintDb semaphore_consts.
#[export] Hint Unfold
  SEMAPHORE_GREEN_DURATION_SEC SEMAPHORE_RED_DURATION_SEC
  SEMAPHORE_YELLOW_DURATION_SEC SEMAPHORE_DURATION_TIMEOUT
  SEMAPHORE_GREEN_STATE SEMAPHORE_RED_STATE SEMAPHORE_YELLOW_STATE
  SEMAPHORE_LED_COLOR_RED SEMAPHORE_LED_COLOR_GREEN SEMAPHORE_LED_COLOR_YELLOW
  SEMAPHORE_DAILY_MODE SEMAPHORE_NIGHT_MODE : semaphore_consts.

(** ** Machine integers

    [uint16_t] and [uint8_t] values are integers in [Z]; the one operation
    that can leave its range, the decrement of the [uint16_t] counter, is
    followed by the reduction the C type performs. *)

Definition uint16_wrap (z : Z) : Z := z mod 65536.

Definition is_uint16 (z : Z) : Prop := 0 <= z < 65536.
Definition is_uint8 (z : Z) : Prop := 0 <= z < 256.

(** ** The shared variables *)

Record globals : Type := mkGlobals {
  g_semaphore_counter : Z;    (* uint16_t: current countdown value *)
  g_sempahore_state : Z;      (* uint8_t: current light state *)
  g_semaphore_led_color : Z;  (* uint8_t: current LED colour *)
  g_semaphore_mode : Z        (* uint8_t: current operation mode *)
}.

(** The initialisers of the four variables. *)
Definition boot : globals :=
  mkGlobals SEMAPHORE_GREEN_DURATION_SEC SEMAPHORE_GREEN_STATE
            SEMAPHORE_LED_COLOR_GREEN SEMAPHORE_DAILY_MODE.

Definition well_typed (g : globals) : Prop :=
  is_uint16 (g_semaphore_counter g) /\ is_uint8 (g_sempahore_state g) /\
  is_uint8 (g_semaphore_led_color g) /\ is_uint8 (g_semaphore_mode g).

Definition set_counter (c : Z) (g : globals) : globals :=
  mkGlobals c (g_sempahore_state g) (g_semaphore_led_color g) (g_semaphore_mode g).
Definition set_state (st : Z) (g : globals) : globals :=
  mkGlobals (g_semaphore_counter g) st (g_semaphore_led_color g) (g_semaphore_mode g).
Definition set_led_color (c : Z) (g : globals) : globals :=
  mkGlobals (g_semaphore_counter g) (g_sempahore_state g) c (g_semaphore_mode g).
Definition set_mode (m : Z) (g : globals) : globals :=
  mkGlobals (g_semaphore_counter g) (g_sempahore_state g) (g_semaphore_led_color g) m.

(** ** [update_semaphore_counter]

    The [switch] has three [case] labels and no [default]: any other value
    of [current_state] falls through without an assignment. *)

Definition update_semaphore_counter (current_state : Z) (g : globals) : globals :=
  if g_semaphore_counter g =? SEMAPHORE_DURATION_TIMEOUT then
    if current_state =? SEMAPHORE_GREEN_STATE then
      set_led_color SEMAPHORE_LED_COLOR_YELLOW
        (set_state SEMAPHORE_YELLOW_STATE
           (set_counter SEMAPHORE_YELLOW_DURATION_SEC g))
    else if current_state =? SEMAPHORE_YELLOW_STATE then
      set_led_color SEMAPHORE_LED_COLOR_RED
        (set_state SEMAPHORE_RED_STATE
           (set_counter SEMAPHORE_RED_DURATION_SEC g))
    else if current_state =? SEMAPHORE_RED_STATE then
      set_led_color SEMAPHORE_LED_COLOR_GREEN
        (set_state SEMAPHORE_GREEN_STATE
           (set_counter SEMAPHORE_GREEN_DURATION_SEC g))
    else g
  else g.

(** ** Driver calls made by the tasks *)

(** The colour argument of [ws2812b_draw]: either the stored
    [g_semaphore_led_color] or the matrix driver's own yellow constant,
    whose numeric value lives in the driver's header. *)
Inductive matrix_color : Type :=
| StoredLedColor (c : Z)
| WS2812B_COLOR_YELLOW.

Inductive driver_call : Type :=
| ws2812b_draw (glyph_index : Z) (color : matrix_color) (intensity : Z)
| oledgfx_clear_line (line : Z)
| ssd1306_draw_string (text : string) (x y : Z)
| oledgfx_render
| vTaskDelay_ms (ms : Z).

(** ** One iteration of [vPushButtonTask]

    [gpio_level] is what [gpio_get(BUTTON_A)] returns; the button is
    active low, so the toggle runs when the level is [false].
    [on_button_edge] is the block guarded by [if(!gpio_get(BUTTON_A))]. *)

Definition on_button_edge (g : globals) : globals :=
  if g_semaphore_mode g =? SEMAPHORE_NIGHT_MODE then
    set_mode SEMAPHORE_DAILY_MODE
      (set_state SEMAPHORE_GREEN_STATE
         (set_led_color SEMAPHORE_LED_COLOR_GREEN
            (set_counter SEMAPHORE_GREEN_DURATION_SEC g)))
  else set_mode SEMAPHORE_NIGHT_MODE g.

Definition vPushButtonTask (gpio_level : bool) (g : globals) : globals :=
  if negb gpio_level then on_button_edge g else g.

(** ** One iteration of [vDisplayTask] *)

Definition display_cue (g : globals) : list driver_call :=
  if g_semaphore_mode g =? SEMAPHORE_DAILY_MODE then
    if g_sempahore_state g =? SEMAPHORE_GREEN_STATE then
      [ssd1306_draw_string "Siga"%string 24 40]
    else if g_sempahore_state g =? SEMAPHORE_YELLOW_STATE then
      [ssd1306_draw_string "Atencao"%string 24 40]
    else if g_sempahore_state g =? SEMAPHORE_RED_STATE then
      [ssd1306_draw_string "Pare"%string 24 40]
    else []
  else [].

Definition vDisplayTask (g : globals) : list driver_call :=
  [oledgfx_clear_line 40] ++ display_cue g ++ [oledgfx_render; vTaskDelay_ms 1000].

(** The strings a display iteration hands to [ssd1306_draw_string]. *)
Fixpoint drawn_texts (calls : list driver_call) : list string :=
  match calls with
  | [] => []
  | ssd1306_draw_string text _ _ :: rest => text :: drawn_texts rest
  | _ :: rest => drawn_texts rest
  end.

(** ** One iteration of [vBlinkTask]

    The loop body has two halves separated by the one-second delay: the
    draw, whose argument [g_semaphore_counter--] post-decrements the
    [uint16_t] counter in day mode, and the transition check, which is
    called in either mode. *)

Definition vBlinkTask_draw (g : globals) : list driver_call * globals :=
  if g_semaphore_mode g =? SEMAPHORE_DAILY_MODE then
    ([ws2812b_draw (g_semaphore_counter g)
                   (StoredLedColor (g_semaphore_led_color g)) 1],
     set_counter (uint16_wrap (g_semaphore_counter g - 1)) g)
  else
    ([ws2812b_draw 0 WS2812B_COLOR_YELLOW 1], g).

Definition vBlinkTask_check (g : globals) : globals :=
  update_semaphore_counter (g_sempahore_state g) g.

Definition vBlinkTask (g : globals) : list driver_call * globals :=
  let (drawn, g1) := vBlinkTask_draw g in
  (drawn ++ [vTaskDelay_ms 1000], vBlinkTask_check g1).

(** The countdown decrement on its own, and a whole period, as state
    transformers. *)
Definition countdown_decrement (g : globals) : globals := snd (vBlinkTask_draw g).
Definition driver_period (g : globals) : globals := snd (vBlinkTask g).

(** ** The tasks running together

    A task gives up the processor at its [vTaskDelay]; the code between
    two delays is taken as one step.  The blink task is therefore either
    about to draw or, having drawn and slept, about to run its transition
    check, and the button task may run an iteration at either point.  The
    display, LED and buzzer tasks assign to none of the four variables and
    so contribute no step. *)

Inductive blink_pc : Type := BlinkAtDraw | BlinkAtCheck.

Record system : Type := mkSystem {
  sys_globals : globals;
  sys_blink_pc : blink_pc
}.

Definition boot_system : system := mkSystem boot BlinkAtDraw.

Inductive action : Type :=
| RunBlink                          (* the next half of the blink loop body *)
| RunPushButton (gpio_level : bool). (* one iteration of the button task *)

Definition exec (s : system) (a : action) : system :=
  match a with
  | RunBlink =>
      match sys_blink_pc s with
      | BlinkAtDraw => mkSystem (countdown_decrement (sys_globals s)) BlinkAtCheck
      | BlinkAtCheck => mkSystem (vBlinkTask_check (sys_globals s)) BlinkAtDraw
      end
  | RunPushButton level =>
      mkSystem (vPushButtonTask level (sys_globals s)) (sys_blink_pc s)
  end.

Definition run (schedule : list action) (s : system) : system :=
  fold_left exec schedule s.

Definition reachable (s : system) : Prop :=
  exists schedule, s = run schedule boot_system.

(** ** Tables read off the transition code *)

(** The state that follows [st] in the assignments of the [switch]. *)
Definition next_state (st : Z) : Z :=
  if st =? SEMAPHORE_GREEN_STATE then SEMAPHORE_YELLOW_STATE
  else if st =? SEMAPHORE_YELLOW_STATE then SEMAPHORE_RED_STATE
  else SEMAPHORE_GREEN_STATE.

(** The duration paired with each state by the assignments of
    [update_semaphore_counter]. *)
Definition semaphore_duration (st : Z) : Z :=
  if st =? SEMAPHORE_GREEN_STATE then SEMAPHORE_GREEN_DURATION_SEC
  else if st =? SEMAPHORE_YELLOW_STATE then SEMAPHORE_YELLOW_DURATION_SEC
  else if st =? SEMAPHORE_RED_STATE then SEMAPHORE_RED_DURATION_SEC
  else 0.

(** The LED colour paired with each state by the same assignments. *)
Definition semaphore_color (st : Z) : Z :=
  if st =? SEMAPHORE_GREEN_STATE then SEMAPHORE_LED_COLOR_GREEN
  else if st =? SEMAPHORE_YELLOW_STATE then SEMAPHORE_LED_COLOR_YELLOW
  else SEMAPHORE_LED_COLOR_RED.

Definition defined_state (st : Z) : Prop :=
  st = SEMAPHORE_GREEN_STATE \/ st = SEMAPHORE_YELLOW_STATE \/ st = SEMAPHORE_RED_STATE.

(** The invariant carried along every schedule. *)
Definition consistent (s : system) : Prop :=
  let g := sys_globals s in
  defined_state (g_sempahore_state g) /\
  g_semaphore_led_color g = semaphore_color (g_sempahore_state g) /\
  0 <= g_semaphore_counter g <= semaphore_duration (g_sempahore_state g) /\
  (g_semaphore_mode g = SEMAPHORE_DAILY_MODE \/ g_semaphore_mode g = SEMAPHORE_NIGHT_MODE) /\
  (sys_blink_pc s = BlinkAtDraw -> 1 <= g_semaphore_counter g).

(** ** Concrete states and schedules used in the examples *)

Definition day_state (st counter : Z) : globals :=
  mkGlobals counter st (semaphore_color st) SEMAPHORE_DAILY_MODE.
Definition night_state (st counter : Z) : globals :=
  mkGlobals counter st (semaphore_color st) SEMAPHORE_NIGHT_MODE.

(** Eight whole periods and the draw of the ninth, then a button press
    during the one-second delay. *)
Definition press_during_last_green_second : list action :=
  repeat RunBlink 17 ++ [RunPushButton false].

(** The globals after each of the first [n] applications of [f]. *)
Fixpoint iterates {A : Type} (n : nat) (f : A -> A) (x : A) : list A :=
  match n with
  | O => []
  | S k => f x :: iterates k f (f x)
  end.

(** ** The LED and buzzer tasks of [PicoFreeRTOS.c] and the RGB driver [lib/rgb.c] *)

(** Colour codes of [lib/rgb.h] and pin numbers of [PicoFreeRTOS.c]. *)
Definition RGB_COLOR_RED : Z := 0.
Definition RGB_COLOR_GREEN : Z := 1.
Definition RGB_COLOR_BLUE : Z := 2.
Definition RGB_COLOR_YELLOW : Z := 3.
Definition RED_PIN : Z := 13.
Definition BLUE_PIN : Z := 12.
Definition GREEN_PIN : Z := 11.

Definition uint8_wrap (z : Z) : Z := z mod 256.

(** What the RGB driver and the two tasks hand to the SDK and the other
    drivers: PWM level writes, console output, buzzer beeps (its second
    and third arguments are passed on as the source writes them), and the
    calls already listed in [driver_call]. *)
Inductive sdk_call : Type :=
| pwm_set_gpio_level (pin level : Z)
| printf (text : string)
| buzzer_beep (pin arg2 arg3 : Z)
| os_call (c : driver_call).


Record rgb_t : Type := mk_rgb_t {
  red_pin : Z;
  green_pin : Z;
  blue_pin : Z
}.

(** The pins [main] passes to [rgb_init_all]. *)
Definition board_rgb : rgb_t := mk_rgb_t RED_PIN GREEN_PIN BLUE_PIN.

(** [calculate_led_intensity_value]: the product is formed in [int] (32
    bits on the target, so it cannot overflow for an 8-bit intensity),
    divided by [100u], and converted to [uint16_t]. *)
Definition calculate_led_intensity_value (intensity : Z) : Z :=
  let intensity := if intensity =? 0 then 1 else intensity in
  let MAX_LED_INTENSITY := 65535 in
  uint16_wrap ((MAX_LED_INTENSITY * intensity) / 100).

Definition rgb_turn_on_red (pins : rgb_t) (intensity : Z) : list sdk_call :=
  [pwm_set_gpio_level (red_pin pins) intensity].
Definition rgb_turn_on_green (pins : rgb_t) (intensity : Z) : list sdk_call :=
  [pwm_set_gpio_level (green_pin pins) intensity].
Definition rgb_turn_on_blue (pins : rgb_t) (intensity : Z) : list sdk_call :=
  [pwm_set_gpio_level (blue_pin pins) intensity].

Definition rgb_turn_on_white (pins : rgb_t) (intensity : Z) : list sdk_call :=
  let led_intensity := calculate_led_intensity_value (intensity / 3) in
  [pwm_set_gpio_level (red_pin pins) led_intensity;
   pwm_set_gpio_level (green_pin pins) led_intensity;
   pwm_set_gpio_level (blue_pin pins) led_intensity].

Definition rgb_turn_off_white (pins : rgb_t) : list sdk_call :=
  [pwm_set_gpio_level (red_pin pins) 0;
   pwm_set_gpio_level (green_pin pins) 0;
   pwm_set_gpio_level (blue_pin pins) 0].

Definition rgb_turn_on_by_gpio (pin intensity : Z) : list sdk_call :=
  [pwm_set_gpio_level pin (calculate_led_intensity_value intensity)].

(** The [switch] has the cases RED, GREEN and YELLOW and no [default]. *)
Definition rgb_turn_on_by_color (pins : rgb_t) (color : Z) : list sdk_call :=
  rgb_turn_off_white pins ++
  (if color =? RGB_COLOR_RED then rgb_turn_on_red pins 5
   else if color =? RGB_COLOR_GREEN then rgb_turn_on_green pins 170
   else if color =? RGB_COLOR_YELLOW then
     rgb_turn_on_red pins 5 ++ rgb_turn_on_green pins 255
   else []).

(** The level most recently written to [pin] by a run of calls, [before]
    when the run writes none. *)
Fixpoint level_after (calls : list sdk_call) (pin : Z) (before : option Z) : option Z :=
  match calls with
  | [] => before
  | pwm_set_gpio_level p level :: rest =>
      level_after rest pin (if p =? pin then Some level else before)
  | _ :: rest => level_after rest pin before
  end.




(** The eighteen globals the day cycle passes through at the start of a
    period. *)
Definition day_cycle_states : list globals :=
  map (day_state SEMAPHORE_GREEN_STATE) [9; 8; 7; 6; 5; 4; 3; 2; 1] ++
  map (day_state SEMAPHORE_YELLOW_STATE) [3; 2; 1] ++
  map (day_state SEMAPHORE_RED_STATE) [6; 5; 4; 3; 2; 1].

(** ** The OLED helpers of [lib/oledgfx.c]

    The panel size [WIDTH] x [HEIGHT] comes from a header and is an
    argument here.  A call of [ssd1306_pixel] is recorded with its
    arguments as the caller computes them (in [int]).  Loops whose counter
    is a [uint8_t] count modulo 256; since such a loop need not end, every
    loop takes fuel and yields [None] when it runs out. *)

Module Oledgfx.

Inductive ssd1306_call : Type :=
| ssd1306_pixel (x y value : Z).

(** [for (uint8_t k = first; k < bound; k++) body], the comparison being
    made in [int]. *)
Fixpoint for_uint8 (fuel : nat) (k bound : Z)
         (body : Z -> option (list ssd1306_call)) : option (list ssd1306_call) :=
  match fuel with
  | O => None
  | S fuel' =>
      if k <? bound then
        match body k with
        | None => None
        | Some out =>
            match for_uint8 fuel' (uint8_wrap (k + 1)) bound body with
            | None => None
            | Some rest => Some (out ++ rest)
            end
        end
      else Some []
  end.

Definition oledgfx_toggle_cursor (fuel : nat) (x y state : Z)
  : option (list ssd1306_call) :=
  for_uint8 fuel 0 8 (fun i =>
    for_uint8 fuel 0 8 (fun j => Some [ssd1306_pixel (x + i) (y + j) state])).

(** [last_cursor_x] and [last_cursor_y] are [int8_t]: storing a [uint8_t]
    reduces it modulo 256 to the signed range (what the target's compiler
    does with a value that does not fit), and passing the stored value
    for a [uint8_t] parameter reduces it back. *)
Definition int8_wrap (z : Z) : Z := (z + 128) mod 256 - 128.

Record cursor : Type := mkCursor {
  last_cursor_x : Z;
  last_cursor_y : Z
}.

Definition oledgfx_draw_cursor (fuel : nat) (x y : Z) (cur : cursor)
  : option (list ssd1306_call * cursor) :=
  match oledgfx_toggle_cursor fuel x y 1 with
  | None => None
  | Some drawn => Some (drawn, mkCursor (int8_wrap x) (int8_wrap y))
  end.

Definition oledgfx_update_cursor (fuel : nat) (x y : Z) (cur : cursor)
  : option (list ssd1306_call * cursor) :=
  match oledgfx_toggle_cursor fuel (uint8_wrap (last_cursor_x cur))
                              (uint8_wrap (last_cursor_y cur)) 0 with
  | None => None
  | Some erased =>
      match oledgfx_toggle_cursor fuel x y 1 with
      | None => None
      | Some drawn => Some (erased ++ drawn, mkCursor (int8_wrap x) (int8_wrap y))
      end
  end.

Definition oledgfx_draw_vline (WIDTH HEIGHT : Z) (fuel : nat) (x thickness : Z)
  : option (list ssd1306_call) :=
  let x := if x + thickness >? WIDTH then uint8_wrap (WIDTH - thickness) else x in
  for_uint8 fuel x (x + thickness) (fun j =>
    for_uint8 fuel 0 HEIGHT (fun i => Some [ssd1306_pixel j i 1])).

Definition oledgfx_draw_hline (WIDTH HEIGHT : Z) (fuel : nat) (y thickness : Z)
  : option (list ssd1306_call) :=
  let y := if y + thickness >? HEIGHT then uint8_wrap (HEIGHT - thickness) else y in
  for_uint8 fuel y (y + thickness) (fun j =>
    for_uint8 fuel 0 WIDTH (fun i => Some [ssd1306_pixel i j 1])).

Definition and_then (first : option (list ssd1306_call))
           (next : option (list ssd1306_call)) : option (list ssd1306_call) :=
  match first with
  | None => None
  | Some out1 =>
      match next with
      | None => None
      | Some out2 => Some (out1 ++ out2)
      end
  end.

(** [WIDTH] and [HEIGHT] are passed for the [uint8_t] parameters [x] and
    [y]. *)
Definition oledgfx_draw_border (WIDTH HEIGHT : Z) (fuel : nat) (thickness : Z)
  : option (list ssd1306_call) :=
  and_then (oledgfx_draw_vline WIDTH HEIGHT fuel 0 thickness)
    (and_then (oledgfx_draw_vline WIDTH HEIGHT fuel (uint8_wrap WIDTH) thickness)
       (and_then (oledgfx_draw_hline WIDTH HEIGHT fuel 0 thickness)
                 (oledgfx_draw_hline WIDTH HEIGHT fuel (uint8_wrap HEIGHT) thickness))).

Definition oledgfx_clear_line (WIDTH : Z) (fuel : nat) (line : Z)
  : option (list ssd1306_call) :=
  for_uint8 fuel 0 WIDTH (fun x =>
    for_uint8 fuel 0 8 (fun y => Some [ssd1306_pixel x (y + line) 0])).

(** The [while (byte)] loop of [oledgfx_count_lit_pixels], [count] being
    a [uint16_t]. *)
Fixpoint count_byte (fuel : nat) (byte count : Z) : option Z :=
  match fuel with
  | O => None
  | S fuel' =>
      if byte =? 0 then Some count
      else count_byte fuel' (Z.shiftr byte 1) (uint16_wrap (count + Z.land byte 1))
  end.

Fixpoint count_buffer (fuel : nat) (ram_buffer : list Z) (count : Z) : option Z :=
  match ram_buffer with
  | [] => Some count
  | byte :: rest =>
      match count_byte fuel byte count with
      | None => None
      | Some count' => count_buffer fuel rest count'
      end
  end.

(** The buffer is the list of its first [bufsize] bytes. *)
Definition oledgfx_count_lit_pixels (fuel : nat) (ram_buffer : list Z) : option Z :=
  count_buffer fuel ram_buffer 0.

End Oledgfx.

(** ** Reference notions for the properties *)

(** Sum of a list of integers. *)
Definition list_sum_Z (l : list Z) : Z := fold_right Z.add 0 l.

(** [n] consecutive integers from [k]. *)
Fixpoint zrange (k : Z) (n : nat) : list Z :=
  match n with
  | O => []
  | S m => k :: zrange (k + 1) m
  end.

(** The number of one bits among the low eight bits of [byte], and in a
    buffer. *)
Definition lit_bits (byte : Z) : Z :=
  list_sum_Z (map (fun i => Z.b2z (Z.testbit byte i)) (zrange 0 8)).

Definition lit_pixels (ram_buffer : list Z) : Z :=
  list_sum_Z (map lit_bits ram_buffer).

(** The same call with another pixel value. *)
Definition with_value (v : Z) (c : Oledgfx.ssd1306_call) : Oledgfx.ssd1306_call :=
  match c with
  | Oledgfx.ssd1306_pixel x y _ => Oledgfx.ssd1306_pixel x y v
  end.

(** Equality test on the four variables. *)
Definition globals_eqb (g1 g2 : globals) : bool :=
  (g_semaphore_counter g1 =? g_semaphore_counter g2) &&
  (g_sempahore_state g1 =? g_sempahore_state g2) &&
  (g_semaphore_led_color g1 =? g_semaphore_led_color g2) &&
  (g_semaphore_mode g1 =? g_semaphore_mode g2).

(** [x] comes back to itself after [period] applications of [f] and not
    before. *)
Definition returns_after {A : Type} (eqb : A -> A -> bool) (f : A -> A)
           (period : nat) (x : A) : bool :=
  eqb (Nat.iter period f x) x &&
  forallb (fun n => negb (eqb (Nat.iter n f x) x)) (seq 1 (period - 1)).

(** One call per pair: [a] over [na] values from [k], and for each [a],
    [b] over [nb] values from 0. *)
Definition grid (mk : Z -> Z -> Oledgfx.ssd1306_call) (k : Z) (na nb : nat)
  : list Oledgfx.ssd1306_call :=
  flat_map (fun a => flat_map (fun b => [mk a b]) (zrange 0 nb)) (zrange k na).

(** The call of the inner loop body of [oledgfx_draw_vline] and of
    [oledgfx_draw_hline], [j] being the outer counter, and of
    [oledgfx_toggle_cursor]. *)
Definition column_pixel (j i : Z) : Oledgfx.ssd1306_call := Oledgfx.ssd1306_pixel j i 1.
Definition row_pixel (j i : Z) : Oledgfx.ssd1306_call := Oledgfx.ssd1306_pixel i j 1.
Definition cursor_pixel (x y state i j : Z) : Oledgfx.ssd1306_call :=
  Oledgfx.ssd1306_pixel (x + i) (y + j) state.

(** * Properties *)

(** ** Proof automation *)

Ltac unfold_consts := autounfold with semaphore_consts in *.

Ltac unfold_ops :=
  unfold driver_period, countdown_decrement, vBlinkTask, vBlinkTask_check,
    vBlinkTask_draw, vPushButtonTask, on_button_edge,
    update_semaphore_counter, semaphore_duration, semaphore_color,
    defined_state, set_mode, set_state, set_led_color, set_counter in *.

Ltac split_eqb :=
  repeat match goal with
         | |- context [Z.eqb ?a ?b] => destruct (Z.eqb_spec a b)
         | H : context [Z.eqb ?a ?b] |- _ => destruct (Z.eqb_spec a b)
         end.

Ltac crush_globals := unfold_ops; unfold_consts; simpl in *; split_eqb; simpl in *.

(** ** Machine arithmetic *)

Lemma uint16_wrap_small (z : Z) : is_uint16 z -> uint16_wrap z = z.
Proof. unfold is_uint16, uint16_wrap. intros H. apply Z.mod_small. exact H. Qed.

Lemma uint16_wrap_range (z : Z) : is_uint16 (uint16_wrap z).
Proof. unfold is_uint16, uint16_wrap. apply Z.mod_pos_bound. lia. Qed.

Lemma uint16_wrap_pred_zero : uint16_wrap (0 - 1) = 65535.
Proof. reflexivity. Qed.

(** ** The transition check *)

Lemma update_semaphore_counter_idle (st : Z) (g : globals) :
  g_semaphore_counter g <> SEMAPHORE_DURATION_TIMEOUT ->
  update_semaphore_counter st g = g.
Proof.
  intros Hc. unfold update_semaphore_counter.
  destruct (Z.eqb_spec (g_semaphore_counter g) SEMAPHORE_DURATION_TIMEOUT); congruence.
Qed.

Lemma update_semaphore_counter_undefined (st : Z) (g : globals) :
  ~ defined_state st -> update_semaphore_counter st g = g.
Proof.
  intros Hst. unfold update_semaphore_counter, defined_state in *.
  destruct (g_semaphore_counter g =? SEMAPHORE_DURATION_TIMEOUT); [|reflexivity].
  destruct (Z.eqb_spec st SEMAPHORE_GREEN_STATE); [tauto|].
  destruct (Z.eqb_spec st SEMAPHORE_YELLOW_STATE); [tauto|].
  destruct (Z.eqb_spec st SEMAPHORE_RED_STATE); [tauto|reflexivity].
Qed.

Lemma update_semaphore_counter_fires (st : Z) (g : globals) :
  defined_state st ->
  g_semaphore_counter g = SEMAPHORE_DURATION_TIMEOUT ->
  update_semaphore_counter st g =
  mkGlobals (semaphore_duration (next_state st)) (next_state st)
            (semaphore_color (next_state st)) (g_semaphore_mode g).
Proof.
  intros Hst Hc. destruct g as [c s col m]. unfold next_state.
  crush_globals; try reflexivity; try lia.
Qed.

Lemma semaphore_duration_pos (st : Z) :
  defined_state st -> 1 <= semaphore_duration st.
Proof. intros H. crush_globals; lia. Qed.

Lemma next_state_defined (st : Z) : defined_state (next_state st).
Proof. unfold next_state. crush_globals; lia. Qed.

(** ** The invariant *)

Lemma consistent_boot : consistent boot_system.
Proof. unfold consistent, boot_system, boot. crush_globals; repeat split; try lia; auto. Qed.

Lemma consistent_exec (s : system) (a : action) :
  consistent s -> consistent (exec s a).
Proof.
  destruct s as [[c st col m] pc]. unfold consistent. simpl.
  intros (Hst & Hcol & Hc & Hm & Hpc).
  destruct a as [|level].
  - destruct pc; simpl.
    + specialize (Hpc eq_refl).
      assert (Hd : semaphore_duration st <= 9) by (crush_globals; lia).
      unfold countdown_decrement, vBlinkTask_draw. simpl.
      destruct (Z.eqb_spec m SEMAPHORE_DAILY_MODE); simpl.
      * rewrite uint16_wrap_small by (unfold is_uint16; lia).
        repeat split; auto; try lia. discriminate.
      * repeat split; auto; try lia.
    + unfold vBlinkTask_check. simpl.
      destruct (Z.eq_dec c SEMAPHORE_DURATION_TIMEOUT) as [Hz|Hz].
      * rewrite update_semaphore_counter_fires by auto. simpl.
        pose proof (next_state_defined st) as Hn.
        pose proof (semaphore_duration_pos _ Hn).
        repeat split; auto; lia.
      * rewrite update_semaphore_counter_idle by auto. simpl.
        unfold_consts. repeat split; auto; lia.
  - destruct level; simpl; crush_globals; intuition (auto; try lia).
Qed.

Lemma consistent_run (schedule : list action) (s : system) :
  consistent s -> consistent (run schedule s).
Proof.
  revert s. induction schedule as [|a rest IH]; intros s Hs; simpl.
  - exact Hs.
  - apply IH. apply consistent_exec. exact Hs.
Qed.

Lemma reachable_consistent (s : system) : reachable s -> consistent s.
Proof.
  intros [schedule ->]. apply consistent_run. apply consistent_boot.
Qed.

Lemma reachable_boot : reachable boot_system.
Proof. exists []. reflexivity. Qed.

Lemma reachable_exec (s : system) (a : action) :
  reachable s -> reachable (exec s a).
Proof.
  intros [schedule ->]. exists (schedule ++ [a]).
  unfold run. rewrite fold_left_app. reflexivity.
Qed.

Lemma reachable_well_typed (s : system) :
  reachable s -> well_typed (sys_globals s).
Proof.
  intros Hr. apply reachable_consistent in Hr.
  destruct s as [[c st col m] pc]. unfold consistent in Hr. simpl in Hr.
  destruct Hr as (Hst & Hcol & Hc & Hm & _).
  assert (Hd : semaphore_duration st <= 9) by (crush_globals; lia).
  unfold well_typed, is_uint16, is_uint8. simpl.
  subst col. crush_globals; lia.
Qed.

(** ** The transition check leaves everything alone unless it fires *)

(** C10: a call of [update_semaphore_counter] with a nonzero counter, or
    with a state argument that is none of GREEN, YELLOW and RED (whatever
    the counter is, zero included), returns the four shared variables
    unchanged. *)
Theorem update_semaphore_counter_frame (current_state : Z) (g : globals) :
  g_semaphore_counter g <> 0 \/ ~ defined_state current_state ->
  update_semaphore_counter current_state g = g.
Proof.
  intros [Hc | Hst].
  - apply update_semaphore_counter_idle. exact Hc.
  - apply update_semaphore_counter_undefined. exact Hst.
Qed.

Lemma update_semaphore_counter_frame_witness :
  ((g_semaphore_counter (day_state SEMAPHORE_RED_STATE 4) <> 0 \/
    ~ defined_state SEMAPHORE_RED_STATE) /\
   update_semaphore_counter SEMAPHORE_RED_STATE (day_state SEMAPHORE_RED_STATE 4)
   = day_state SEMAPHORE_RED_STATE 4) /\
  ((g_semaphore_counter (mkGlobals 0 7 5 SEMAPHORE_DAILY_MODE) <> 0 \/
    ~ defined_state 7) /\
   update_semaphore_counter 7 (mkGlobals 0 7 5 SEMAPHORE_DAILY_MODE)
   = mkGlobals 0 7 5 SEMAPHORE_DAILY_MODE).
Proof.
  assert (H4 : g_semaphore_counter (day_state SEMAPHORE_RED_STATE 4) <> 0)
    by (simpl; lia).
  assert (H7 : ~ defined_state 7)
    by (unfold defined_state; unfold_consts; lia).
  split; split.
  - left. exact H4.
  - apply update_semaphore_counter_frame. left. exact H4.
  - right. exact H7.
  - apply update_semaphore_counter_frame. right. exact H7.
Defined.

(** ** The mode button *)

(** C5: a button edge taken in night mode restarts the day cycle: whatever
    state, colour and countdown were stored, the four variables become
    those of boot, that is day mode, GREEN, nine seconds. *)
Theorem night_to_day_resets (g : globals) :
  g_semaphore_mode g = SEMAPHORE_NIGHT_MODE ->
  on_button_edge g = boot /\
  vPushButtonTask false g =
  mkGlobals SEMAPHORE_GREEN_DURATION_SEC SEMAPHORE_GREEN_STATE
            SEMAPHORE_LED_COLOR_GREEN SEMAPHORE_DAILY_MODE.
Proof.
  intros Hm. unfold vPushButtonTask, on_button_edge. simpl.
  rewrite Hm, Z.eqb_refl. split; reflexivity.
Qed.

Lemma night_to_day_resets_witness :
  g_semaphore_mode (night_state SEMAPHORE_RED_STATE 4) = SEMAPHORE_NIGHT_MODE /\
  on_button_edge (night_state SEMAPHORE_RED_STATE 4) = boot.
Proof.
  split.
  - reflexivity.
  - apply (night_to_day_resets (night_state SEMAPHORE_RED_STATE 4)). reflexivity.
Defined.

(** C6: a button edge taken in day mode only writes the mode: state,
    countdown and colour keep their values, and a second edge gives day
    mode, GREEN, nine seconds.  From (Day, RED, 4) the first edge gives
    (Night, RED, 4). *)
Theorem day_to_night_freezes (g : globals) :
  g_semaphore_mode g = SEMAPHORE_DAILY_MODE ->
  on_button_edge g =
    mkGlobals (g_semaphore_counter g) (g_sempahore_state g)
              (g_semaphore_led_color g) SEMAPHORE_NIGHT_MODE /\
  on_button_edge (on_button_edge g) =
    mkGlobals SEMAPHORE_GREEN_DURATION_SEC SEMAPHORE_GREEN_STATE
              SEMAPHORE_LED_COLOR_GREEN SEMAPHORE_DAILY_MODE /\
  on_button_edge (day_state SEMAPHORE_RED_STATE 4) = night_state SEMAPHORE_RED_STATE 4.
Proof.
  intros Hm. unfold on_button_edge at 1 3. rewrite Hm. simpl.
  split; [reflexivity|]. split; reflexivity.
Qed.

Lemma day_to_night_freezes_witness :
  g_semaphore_mode (day_state SEMAPHORE_RED_STATE 4) = SEMAPHORE_DAILY_MODE /\
  on_button_edge (day_state SEMAPHORE_RED_STATE 4) =
    mkGlobals 4 SEMAPHORE_RED_STATE SEMAPHORE_LED_COLOR_RED SEMAPHORE_NIGHT_MODE /\
  on_button_edge (on_button_edge (day_state SEMAPHORE_RED_STATE 4)) =
    mkGlobals 9 SEMAPHORE_GREEN_STATE SEMAPHORE_LED_COLOR_GREEN SEMAPHORE_DAILY_MODE.
Proof.
  split; [reflexivity|].
  destruct (day_to_night_freezes (day_state SEMAPHORE_RED_STATE 4) eq_refl)
    as (H1 & H2 & _).
  split; [exact H1 | exact H2].
Defined.

(** ** The day cycle *)

(** The bound on the countdown rests on the loop running its check after
    every decrement: ten decrements in a row from boot wrap the counter. *)
Example decrement_without_check_wraps :
  g_semaphore_counter (Nat.iter 10 countdown_decrement boot) = 65535.
Proof. reflexivity. Qed.

Lemma update_semaphore_counter_cycle (col m : Z) :
  update_semaphore_counter SEMAPHORE_GREEN_STATE
    (mkGlobals 0 SEMAPHORE_GREEN_STATE col m)
  = mkGlobals SEMAPHORE_YELLOW_DURATION_SEC SEMAPHORE_YELLOW_STATE
              SEMAPHORE_LED_COLOR_YELLOW m /\
  update_semaphore_counter SEMAPHORE_YELLOW_STATE
    (mkGlobals 0 SEMAPHORE_YELLOW_STATE col m)
  = mkGlobals SEMAPHORE_RED_DURATION_SEC SEMAPHORE_RED_STATE
              SEMAPHORE_LED_COLOR_RED m /\
  update_semaphore_counter SEMAPHORE_RED_STATE
    (mkGlobals 0 SEMAPHORE_RED_STATE col m)
  = mkGlobals SEMAPHORE_GREEN_DURATION_SEC SEMAPHORE_GREEN_STATE
              SEMAPHORE_LED_COLOR_GREEN m.
Proof. repeat split. Qed.

(** C3: from the boot state (Day, GREEN, 9), nine decrements give
    countdown 0 with the state still GREEN and the transition check then
    gives (YELLOW, 3); three decrements and the check give (RED, 6); six
    decrements and the check give (GREEN, 9), the boot state again.  The
    check at countdown 0 sends GREEN to YELLOW, YELLOW to RED and RED to
    GREEN with durations 3, 6 and 9 whatever colour and mode are stored,
    and the loop as it runs (the check after every decrement) visits
    GREEN, YELLOW, RED, GREEN in that order over eighteen periods. *)
Theorem day_cycle_scenario :
  Nat.iter 9 countdown_decrement boot = day_state SEMAPHORE_GREEN_STATE 0 /\
  vBlinkTask_check (day_state SEMAPHORE_GREEN_STATE 0)
    = day_state SEMAPHORE_YELLOW_STATE 3 /\
  Nat.iter 3 countdown_decrement (day_state SEMAPHORE_YELLOW_STATE 3)
    = day_state SEMAPHORE_YELLOW_STATE 0 /\
  vBlinkTask_check (day_state SEMAPHORE_YELLOW_STATE 0)
    = day_state SEMAPHORE_RED_STATE 6 /\
  Nat.iter 6 countdown_decrement (day_state SEMAPHORE_RED_STATE 6)
    = day_state SEMAPHORE_RED_STATE 0 /\
  vBlinkTask_check (day_state SEMAPHORE_RED_STATE 0) = boot /\
  (forall col m,
      update_semaphore_counter SEMAPHORE_GREEN_STATE
        (mkGlobals 0 SEMAPHORE_GREEN_STATE col m)
      = mkGlobals 3 SEMAPHORE_YELLOW_STATE SEMAPHORE_LED_COLOR_YELLOW m /\
      update_semaphore_counter SEMAPHORE_YELLOW_STATE
        (mkGlobals 0 SEMAPHORE_YELLOW_STATE col m)
      = mkGlobals 6 SEMAPHORE_RED_STATE SEMAPHORE_LED_COLOR_RED m /\
      update_semaphore_counter SEMAPHORE_RED_STATE
        (mkGlobals 0 SEMAPHORE_RED_STATE col m)
      = mkGlobals 9 SEMAPHORE_GREEN_STATE SEMAPHORE_LED_COLOR_GREEN m) /\
  map (fun g => (g_sempahore_state g, g_semaphore_counter g))
      (iterates 18 driver_period boot)
  = [(SEMAPHORE_GREEN_STATE, 8); (SEMAPHORE_GREEN_STATE, 7);
     (SEMAPHORE_GREEN_STATE, 6); (SEMAPHORE_GREEN_STATE, 5);
     (SEMAPHORE_GREEN_STATE, 4); (SEMAPHORE_GREEN_STATE, 3);
     (SEMAPHORE_GREEN_STATE, 2); (SEMAPHORE_GREEN_STATE, 1);
     (SEMAPHORE_YELLOW_STATE, 3); (SEMAPHORE_YELLOW_STATE, 2);
     (SEMAPHORE_YELLOW_STATE, 1);
     (SEMAPHORE_RED_STATE, 6); (SEMAPHORE_RED_STATE, 5);
     (SEMAPHORE_RED_STATE, 4); (SEMAPHORE_RED_STATE, 3);
     (SEMAPHORE_RED_STATE, 2); (SEMAPHORE_RED_STATE, 1);
     (SEMAPHORE_GREEN_STATE, 9)] /\
  Nat.iter 18 driver_period boot = boot.
Proof.
  repeat match goal with |- _ /\ _ => split end;
    try (vm_compute; reflexivity).
  intros col m. apply update_semaphore_counter_cycle.
Qed.

(** ** Invariants of the running system *)

(** C4: in every state reachable from boot (Day, GREEN, 9) by decrements,
    transition checks and button edges, the countdown lies between 0 and
    the duration of the current state, where GREEN lasts 9, YELLOW 3 and
    RED 6. *)
Theorem remaining_within_duration (s : system) :
  reachable s ->
  0 <= g_semaphore_counter (sys_globals s)
    <= semaphore_duration (g_sempahore_state (sys_globals s)) /\
  defined_state (g_sempahore_state (sys_globals s)) /\
  semaphore_duration SEMAPHORE_GREEN_STATE = 9 /\
  semaphore_duration SEMAPHORE_YELLOW_STATE = 3 /\
  semaphore_duration SEMAPHORE_RED_STATE = 6.
Proof.
  intros Hr. apply reachable_consistent in Hr.
  destruct Hr as (Hst & _ & Hc & _).
  repeat split; try exact Hst; try apply Hc.
Qed.

Lemma remaining_within_duration_witness :
  reachable (run press_during_last_green_second boot_system) /\
  0 <= g_semaphore_counter (sys_globals (run press_during_last_green_second boot_system))
    <= semaphore_duration
         (g_sempahore_state (sys_globals (run press_during_last_green_second boot_system))).
Proof.
  split.
  - exists press_during_last_green_second. reflexivity.
  - refine (proj1
      (remaining_within_duration (run press_during_last_green_second boot_system) _)).
    exists press_during_last_green_second. reflexivity.
Defined.

(** C9: each state has its own colour (GREEN with green, YELLOW with
    yellow, RED with red, three different colour codes), and in every
    state reachable from boot by decrements, transition checks and button
    edges the stored colour is the colour of the stored state. *)
Theorem color_follows_state (s : system) :
  reachable s ->
  ((g_sempahore_state (sys_globals s) = SEMAPHORE_GREEN_STATE /\
    g_semaphore_led_color (sys_globals s) = SEMAPHORE_LED_COLOR_GREEN) \/
   (g_sempahore_state (sys_globals s) = SEMAPHORE_YELLOW_STATE /\
    g_semaphore_led_color (sys_globals s) = SEMAPHORE_LED_COLOR_YELLOW) \/
   (g_sempahore_state (sys_globals s) = SEMAPHORE_RED_STATE /\
    g_semaphore_led_color (sys_globals s) = SEMAPHORE_LED_COLOR_RED)) /\
  g_semaphore_led_color (sys_globals s)
    = semaphore_color (g_sempahore_state (sys_globals s)) /\
  (forall st, defined_state st ->
     semaphore_color st = g_semaphore_led_color (sys_globals s) ->
     st = g_sempahore_state (sys_globals s)).
Proof.
  intros Hr. apply reachable_consistent in Hr.
  destruct Hr as (Hst & Hcol & _).
  split; [|split; [exact Hcol|]].
  - rewrite Hcol. destruct Hst as [-> | [-> | ->]]; [left | right; left | right; right];
      split; reflexivity.
  - intros st Hd. rewrite Hcol.
    destruct Hst as [-> | [-> | ->]]; destruct Hd as [-> | [-> | ->]];
      vm_compute; congruence.
Qed.

Lemma color_follows_state_witness :
  reachable (run press_during_last_green_second boot_system) /\
  g_semaphore_led_color (sys_globals (run press_during_last_green_second boot_system))
  = semaphore_color
      (g_sempahore_state (sys_globals (run press_during_last_green_second boot_system))).
Proof.
  split.
  - exists press_during_last_green_second. reflexivity.
  - refine (proj1 (proj2
      (color_follows_state (run press_during_last_green_second boot_system) _))).
    exists press_during_last_green_second. reflexivity.
Defined.

(** ** Night mode and the countdown driver *)

(** C1, as stated, fails: with the mode at night and the countdown at 0 a
    driver period moves GREEN to YELLOW and the countdown to 3.  The state
    arises in a run from boot when the button is pressed during the
    one-second delay that follows the draw of the last green second. *)
Lemma night_check_fires_at_zero :
  g_semaphore_mode (night_state SEMAPHORE_GREEN_STATE 0) = SEMAPHORE_NIGHT_MODE /\
  driver_period (night_state SEMAPHORE_GREEN_STATE 0)
    = night_state SEMAPHORE_YELLOW_STATE 3 /\
  g_sempahore_state (driver_period (night_state SEMAPHORE_GREEN_STATE 0))
    <> g_sempahore_state (night_state SEMAPHORE_GREEN_STATE 0) /\
  g_semaphore_counter (driver_period (night_state SEMAPHORE_GREEN_STATE 0))
    <> g_semaphore_counter (night_state SEMAPHORE_GREEN_STATE 0) /\
  run press_during_last_green_second boot_system
    = mkSystem (night_state SEMAPHORE_GREEN_STATE 0) BlinkAtCheck /\
  exec (mkSystem (night_state SEMAPHORE_GREEN_STATE 0) BlinkAtCheck) RunBlink
    = mkSystem (night_state SEMAPHORE_YELLOW_STATE 3) BlinkAtDraw.
Proof. repeat split; vm_compute; congruence. Qed.

(** C1, amended: in night mode the driver never decrements the countdown
    and never writes the mode; a period leaves all four variables
    unchanged whenever the countdown is not 0, which is the case at the
    start of every period of a run from boot.  At countdown 0 the
    end-of-period check, which does not look at the mode, performs the
    transition to the next state with its duration and colour, after
    which further night periods change nothing. *)
Theorem night_period_frame (g : globals) :
  g_semaphore_mode g = SEMAPHORE_NIGHT_MODE ->
  countdown_decrement g = g /\
  g_semaphore_mode (driver_period g) = SEMAPHORE_NIGHT_MODE /\
  (g_semaphore_counter g <> 0 -> driver_period g = g) /\
  (reachable (mkSystem g BlinkAtDraw) -> driver_period g = g) /\
  (g_semaphore_counter g = 0 -> defined_state (g_sempahore_state g) ->
     driver_period g
       = night_state (next_state (g_sempahore_state g))
                     (semaphore_duration (next_state (g_sempahore_state g))) /\
     driver_period (driver_period g) = driver_period g).
Proof.
  intros Hm.
  assert (Hdec : countdown_decrement g = g).
  { unfold countdown_decrement, vBlinkTask_draw. rewrite Hm. reflexivity. }
  assert (Hper : driver_period g = update_semaphore_counter (g_sempahore_state g) g).
  { unfold driver_period, vBlinkTask, vBlinkTask_draw. rewrite Hm. reflexivity. }
  assert (Hidle : g_semaphore_counter g <> 0 -> driver_period g = g).
  { intros Hc. rewrite Hper. apply update_semaphore_counter_idle. exact Hc. }
  split; [exact Hdec|]. split; [|split; [exact Hidle|split]].
  - rewrite Hper. destruct g as [c st col m]. simpl in *. subst m.
    crush_globals; reflexivity.
  - intros Hr. apply Hidle. apply reachable_consistent in Hr.
    destruct Hr as (_ & _ & _ & _ & Hpc). specialize (Hpc eq_refl). simpl in Hpc. lia.
  - intros Hc Hst.
    assert (Hfire : driver_period g
       = night_state (next_state (g_sempahore_state g))
                     (semaphore_duration (next_state (g_sempahore_state g)))).
    { rewrite Hper, update_semaphore_counter_fires by assumption.
      rewrite Hm. reflexivity. }
    split; [exact Hfire|].
    rewrite Hfire at 1 2. unfold driver_period, vBlinkTask. simpl.
    unfold vBlinkTask_check. simpl.
    apply update_semaphore_counter_idle. simpl.
    pose proof (semaphore_duration_pos _ (next_state_defined (g_sempahore_state g))).
    unfold SEMAPHORE_DURATION_TIMEOUT. lia.
Qed.

Lemma night_period_frame_witness :
  g_semaphore_mode (night_state SEMAPHORE_RED_STATE 4) = SEMAPHORE_NIGHT_MODE /\
  driver_period (night_state SEMAPHORE_RED_STATE 4) = night_state SEMAPHORE_RED_STATE 4.
Proof.
  split; [reflexivity|].
  refine (proj1 (proj2 (proj2
    (night_period_frame (night_state SEMAPHORE_RED_STATE 4) eq_refl))) _).
  simpl. lia.
Defined.

(** ** The countdown decrement *)

(** C2, as stated, fails: the decrement applied in day mode at countdown 0
    wraps the sixteen-bit counter to 65535. *)
Lemma countdown_decrement_wraps_at_zero :
  g_semaphore_counter (day_state SEMAPHORE_GREEN_STATE 0) = 0 /\
  g_semaphore_mode (day_state SEMAPHORE_GREEN_STATE 0) = SEMAPHORE_DAILY_MODE /\
  g_semaphore_counter (countdown_decrement (day_state SEMAPHORE_GREEN_STATE 0)) = 65535.
Proof. repeat split. Qed.

(** C2, amended: the decrement is the wrapping one of [uint16_t], not a
    saturating one, but the loop never applies it at countdown 0: in every
    state of a run from boot in which the draw is about to run the
    countdown is at least 1, so the decrement gives countdown minus one,
    which is not negative.  Countdown 0 is the timeout test of the check:
    the check then moves to the next state and stores its nonzero
    duration, so a repeated check changes nothing; from a nonzero
    countdown the check performs no transition. *)
Theorem countdown_timeout_discipline (s : system) (g : globals) (st : Z) :
  (g_semaphore_mode g = SEMAPHORE_DAILY_MODE ->
     g_semaphore_counter (countdown_decrement g)
       = (g_semaphore_counter g - 1) mod 65536) /\
  (reachable s -> sys_blink_pc s = BlinkAtDraw ->
     1 <= g_semaphore_counter (sys_globals s) /\
     0 <= g_semaphore_counter (countdown_decrement (sys_globals s)) /\
     (g_semaphore_mode (sys_globals s) = SEMAPHORE_DAILY_MODE ->
        g_semaphore_counter (countdown_decrement (sys_globals s))
          = g_semaphore_counter (sys_globals s) - 1)) /\
  (g_semaphore_counter g = 0 -> defined_state st ->
     g_sempahore_state (update_semaphore_counter st g) = next_state st /\
     g_semaphore_counter (update_semaphore_counter st g)
       = semaphore_duration (next_state st) /\
     g_semaphore_counter (update_semaphore_counter st g) <> 0 /\
     (forall st', update_semaphore_counter st' (update_semaphore_counter st g)
                  = update_semaphore_counter st g)) /\
  (g_semaphore_counter g <> 0 -> update_semaphore_counter st g = g).
Proof.
  split; [|split; [|split]].
  - intros Hm. unfold countdown_decrement, vBlinkTask_draw. rewrite Hm. reflexivity.
  - intros Hr Hpc.
    pose proof (reachable_well_typed _ Hr) as (Hw & _).
    apply reachable_consistent in Hr.
    destruct Hr as (_ & _ & _ & Hm & Hone). specialize (Hone Hpc).
    destruct s as [[c st0 col m] pc]. simpl in *.
    unfold is_uint16 in Hw.
    unfold countdown_decrement, vBlinkTask_draw. simpl.
    destruct (Z.eqb_spec m SEMAPHORE_DAILY_MODE) as [Hd|Hd]; simpl.
    + rewrite uint16_wrap_small by (unfold is_uint16; lia).
      repeat split; try lia.
    + repeat split; try lia.
  - intros Hc Hst.
    rewrite update_semaphore_counter_fires by assumption. simpl.
    pose proof (semaphore_duration_pos _ (next_state_defined st)).
    repeat split; try lia.
    intros st'. apply update_semaphore_counter_idle. simpl.
    unfold SEMAPHORE_DURATION_TIMEOUT. lia.
  - intros Hc. apply update_semaphore_counter_idle. exact Hc.
Qed.

Lemma countdown_timeout_discipline_witness :
  (reachable boot_system /\ sys_blink_pc boot_system = BlinkAtDraw /\
   g_semaphore_counter (countdown_decrement (sys_globals boot_system)) = 9 - 1) /\
  (g_semaphore_counter (day_state SEMAPHORE_GREEN_STATE 0) = 0 /\
   defined_state SEMAPHORE_GREEN_STATE /\
   g_semaphore_counter
     (update_semaphore_counter SEMAPHORE_GREEN_STATE (day_state SEMAPHORE_GREEN_STATE 0))
   = 3) /\
  (g_semaphore_counter (day_state SEMAPHORE_RED_STATE 4) <> 0 /\
   update_semaphore_counter SEMAPHORE_RED_STATE (day_state SEMAPHORE_RED_STATE 4)
   = day_state SEMAPHORE_RED_STATE 4) /\
  (g_semaphore_mode (day_state SEMAPHORE_GREEN_STATE 0) = SEMAPHORE_DAILY_MODE /\
   g_semaphore_counter (countdown_decrement (day_state SEMAPHORE_GREEN_STATE 0))
   = (0 - 1) mod 65536).
Proof.
  assert (Hnz : g_semaphore_counter (day_state SEMAPHORE_RED_STATE 4) <> 0)
    by (simpl; lia).
  assert (Hdef : defined_state SEMAPHORE_GREEN_STATE) by (left; reflexivity).
  assert (Hboot : reachable boot_system) by (exists []; reflexivity).
  split; [|split; [|split]].
  - split; [exact Hboot|]. split; [reflexivity|].
    exact (proj2 (proj2 (proj1 (proj2
      (countdown_timeout_discipline boot_system boot SEMAPHORE_GREEN_STATE))
      Hboot eq_refl)) eq_refl).
  - split; [reflexivity|]. split; [exact Hdef|].
    exact (proj1 (proj2 (proj1 (proj2 (proj2
      (countdown_timeout_discipline boot_system
         (day_state SEMAPHORE_GREEN_STATE 0) SEMAPHORE_GREEN_STATE)))
      eq_refl Hdef))).
  - split; [exact Hnz|].
    exact (proj2 (proj2 (proj2
      (countdown_timeout_discipline boot_system
         (day_state SEMAPHORE_RED_STATE 4) SEMAPHORE_RED_STATE))) Hnz).
  - split; [reflexivity|].
    exact (proj1 (countdown_timeout_discipline boot_system
                    (day_state SEMAPHORE_GREEN_STATE 0) SEMAPHORE_GREEN_STATE) eq_refl).
Defined.

(** ** The display task *)

(** C8, as stated, fails on the text: in day mode with the state GREEN the
    display task draws the string Siga, not the string go. *)
Lemma display_cue_is_not_english :
  g_semaphore_mode boot = SEMAPHORE_DAILY_MODE /\
  g_sempahore_state boot = SEMAPHORE_GREEN_STATE /\
  drawn_texts (vDisplayTask boot) = ["Siga"%string] /\
  drawn_texts (vDisplayTask boot) <> ["go"%string].
Proof. repeat split. vm_compute. discriminate. Qed.

(** C8, amended: after clearing line 40 the display task draws, at column
    24 of that line, Siga in day mode with the state GREEN, Atencao with
    YELLOW and Pare with RED (the Portuguese cues for go, caution and
    stop), then renders; in night mode it draws no text at all. *)
Theorem display_cue_by_state (g : globals) :
  (g_semaphore_mode g = SEMAPHORE_DAILY_MODE ->
   g_sempahore_state g = SEMAPHORE_GREEN_STATE ->
   vDisplayTask g = [oledgfx_clear_line 40; ssd1306_draw_string "Siga" 24 40;
                     oledgfx_render; vTaskDelay_ms 1000]) /\
  (g_semaphore_mode g = SEMAPHORE_DAILY_MODE ->
   g_sempahore_state g = SEMAPHORE_YELLOW_STATE ->
   vDisplayTask g = [oledgfx_clear_line 40; ssd1306_draw_string "Atencao" 24 40;
                     oledgfx_render; vTaskDelay_ms 1000]) /\
  (g_semaphore_mode g = SEMAPHORE_DAILY_MODE ->
   g_sempahore_state g = SEMAPHORE_RED_STATE ->
   vDisplayTask g = [oledgfx_clear_line 40; ssd1306_draw_string "Pare" 24 40;
                     oledgfx_render; vTaskDelay_ms 1000]) /\
  (g_semaphore_mode g = SEMAPHORE_NIGHT_MODE ->
   vDisplayTask g = [oledgfx_clear_line 40; oledgfx_render; vTaskDelay_ms 1000] /\
   drawn_texts (vDisplayTask g) = []).
Proof.
  unfold vDisplayTask, display_cue.
  split; [|split; [|split]]; intros Hm.
  - intros Hst. rewrite Hm, Hst. reflexivity.
  - intros Hst. rewrite Hm, Hst. reflexivity.
  - intros Hst. rewrite Hm, Hst. reflexivity.
  - rewrite Hm. split; reflexivity.
Qed.

Lemma display_cue_by_state_witness :
  (g_semaphore_mode boot = SEMAPHORE_DAILY_MODE /\
   g_sempahore_state boot = SEMAPHORE_GREEN_STATE /\
   drawn_texts (vDisplayTask boot) = ["Siga"%string]) /\
  (g_semaphore_mode (night_state SEMAPHORE_RED_STATE 4) = SEMAPHORE_NIGHT_MODE /\
   drawn_texts (vDisplayTask (night_state SEMAPHORE_RED_STATE 4)) = []).
Proof.
  split.
  - split; [reflexivity|]. split; [reflexivity|].
    rewrite (proj1 (display_cue_by_state boot) eq_refl eq_refl). reflexivity.
  - split; [reflexivity|].
    exact (proj2 (proj2 (proj2 (proj2
      (display_cue_by_state (night_state SEMAPHORE_RED_STATE 4))))
      eq_refl)).
Defined.

(** * Further properties of the tasks and of the drivers *)

(** ** The RGB driver *)

Lemma calculate_led_intensity_value_small (i : Z) :
  1 <= i <= 100 -> calculate_led_intensity_value i = 65535 * i / 100.
Proof.
  intros Hi. unfold calculate_led_intensity_value.
  destruct (Z.eqb_spec i 0) as [->|_]; [lia|].
  apply uint16_wrap_small. unfold is_uint16.
  split.
  - apply Z.div_pos; lia.
  - apply Z.div_lt_upper_bound; lia.
Qed.

(** X1: for a percentage between 0 and 100 the PWM value is the 16-bit
    full scale times the percentage over 100, with 0 treated as 1; it lies
    between 655 and 65535, reaches 65535 at 100, and grows with the
    percentage. *)
Theorem calculate_led_intensity_value_percent (i j : Z) :
  0 <= i <= j -> j <= 100 ->
  calculate_led_intensity_value i = 65535 * Z.max i 1 / 100 /\
  655 <= calculate_led_intensity_value i <= 65535 /\
  calculate_led_intensity_value i <= calculate_led_intensity_value j /\
  calculate_led_intensity_value 100 = 65535.
Proof.
  intros Hij Hj.
  assert (Hmax : forall k, 0 <= k <= 100 ->
            calculate_led_intensity_value k = 65535 * Z.max k 1 / 100).
  { intros k Hk. destruct (Z.eq_dec k 0) as [->|Hk0]; [reflexivity|].
    rewrite Z.max_l by lia. apply calculate_led_intensity_value_small. lia. }
  assert (Hmono : forall a b, 1 <= a <= b -> 65535 * a / 100 <= 65535 * b / 100).
  { intros a b Hab. apply Z.div_le_mono; lia. }
  rewrite (Hmax i), (Hmax j) by lia.
  split; [reflexivity|]. split; [|split; [|reflexivity]].
  - split.
    + change 655 with (65535 * 1 / 100). apply Hmono. lia.
    + change 65535 with (65535 * 100 / 100) at 2. apply Hmono. lia.
  - apply Hmono. lia.
Qed.

Lemma calculate_led_intensity_value_percent_witness :
  (0 <= 50 <= 75 /\ 75 <= 100) /\
  calculate_led_intensity_value 50 <= calculate_led_intensity_value 75.
Proof.
  split; [lia|].
  refine (proj1 (proj2 (proj2
    (calculate_led_intensity_value_percent 50 75 _ _)))); lia.
Defined.

(** X2: an intensity above 100 overflows the 16-bit result: the value is
    the scaled product less one or two times 65536, and is always below
    the value for 100. *)
Theorem calculate_led_intensity_value_over_100 (i : Z) :
  100 < i <= 255 ->
  calculate_led_intensity_value i
    = 65535 * i / 100 - 65536 * (if i <=? 200 then 1 else 2) /\
  calculate_led_intensity_value i < calculate_led_intensity_value 100.
Proof.
  intros Hi.
  change (calculate_led_intensity_value 100) with 65535.
  pose proof (Z.div_mod (65535 * i) 100 ltac:(lia)) as Hdm.
  pose proof (Z.mod_pos_bound (65535 * i) 100 ltac:(lia)) as Hr.
  assert (Heq : calculate_led_intensity_value i
                = 65535 * i / 100 - 65536 * (if i <=? 200 then 1 else 2)).
  { unfold calculate_led_intensity_value, uint16_wrap.
    destruct (Z.eqb_spec i 0) as [->|_]; [lia|].
    set (q := 65535 * i / 100) in *.
    destruct (Z.leb_spec i 200) as [Hle|Hgt].
    - replace q with ((q - 65536) + 1 * 65536) at 1 by lia.
      rewrite Z_mod_plus_full, Z.mod_small; lia.
    - replace q with ((q - 131072) + 2 * 65536) at 1 by lia.
      rewrite Z_mod_plus_full, Z.mod_small; lia. }
  split; [exact Heq|]. rewrite Heq.
  destruct (Z.leb_spec i 200); lia.
Qed.

Lemma calculate_led_intensity_value_over_100_witness :
  100 < 101 <= 255 /\ calculate_led_intensity_value 101 = 654.
Proof.
  split; [lia|].
  exact (proj1 (calculate_led_intensity_value_over_100 101 ltac:(lia))).
Defined.

(** X3: whatever 8-bit intensity is asked for, white writes one and the
    same level to the red, green and blue pins: the PWM value of a third
    of the intensity, which is at least 655 and at most 55704. *)
Theorem rgb_turn_on_white_levels (pins : rgb_t) (intensity : Z) :
  0 <= intensity <= 255 ->
  rgb_turn_on_white pins intensity =
    [pwm_set_gpio_level (red_pin pins) (65535 * Z.max (intensity / 3) 1 / 100);
     pwm_set_gpio_level (green_pin pins) (65535 * Z.max (intensity / 3) 1 / 100);
     pwm_set_gpio_level (blue_pin pins) (65535 * Z.max (intensity / 3) 1 / 100)] /\
  655 <= 65535 * Z.max (intensity / 3) 1 / 100 <= 55704.
Proof.
  intros Hi.
  assert (Hthird : 0 <= intensity / 3 <= 85).
  { split; [apply Z.div_pos; lia|].
    apply Z.lt_succ_r. apply Z.div_lt_upper_bound; lia. }
  assert (Heq : calculate_led_intensity_value (intensity / 3)
                = 65535 * Z.max (intensity / 3) 1 / 100).
  { destruct (Z.eq_dec (intensity / 3) 0) as [->|Hz]; [reflexivity|].
    rewrite Z.max_l by lia. apply calculate_led_intensity_value_small. lia. }
  unfold rgb_turn_on_white. rewrite Heq.
  split; [reflexivity|]. split.
  - change 655 with (65535 * 1 / 100). apply Z.div_le_mono; lia.
  - change 55704 with (65535 * 85 / 100). apply Z.div_le_mono; lia.
Qed.

Lemma rgb_turn_on_white_levels_witness :
  0 <= 100 <= 255 /\
  rgb_turn_on_white board_rgb 100 =
    [pwm_set_gpio_level RED_PIN 21626; pwm_set_gpio_level GREEN_PIN 21626;
     pwm_set_gpio_level BLUE_PIN 21626].
Proof.
  split; [lia|].
  exact (proj1 (rgb_turn_on_white_levels board_rgb 100 ltac:(lia))).
Defined.

Lemma last_levels_by_color (pins : rgb_t) (color : Z)
        (before : option Z) (other : Z) :
  red_pin pins <> green_pin pins ->
  red_pin pins <> blue_pin pins ->
  green_pin pins <> blue_pin pins ->
  level_after (rgb_turn_on_by_color pins color) (red_pin pins) before
    = Some (if (color =? RGB_COLOR_RED) || (color =? RGB_COLOR_YELLOW)
            then 5 else 0) /\
  level_after (rgb_turn_on_by_color pins color) (green_pin pins) before
    = Some (if color =? RGB_COLOR_GREEN then 170
            else if color =? RGB_COLOR_YELLOW then 255 else 0) /\
  level_after (rgb_turn_on_by_color pins color) (blue_pin pins) before = Some 0 /\
  (other <> red_pin pins -> other <> green_pin pins -> other <> blue_pin pins ->
   level_after (rgb_turn_on_by_color pins color) other before = before).
Proof.
  destruct pins as [r g b]. simpl. intros Hrg Hrb Hgb.
  unfold rgb_turn_on_by_color, rgb_turn_off_white, rgb_turn_on_red,
    rgb_turn_on_green, RGB_COLOR_RED, RGB_COLOR_GREEN, RGB_COLOR_YELLOW.
  simpl.
  assert (Hne : forall a c : Z, a <> c -> (a =? c) = false)
    by (intros a c H; apply Z.eqb_neq; exact H).
  split; [|split; [|split; [|intros Ho1 Ho2 Ho3]]];
    (destruct (Z.eqb_spec color 0); [subst|]); simpl;
    try (destruct (Z.eqb_spec color 1); [subst|]; simpl);
    try (destruct (Z.eqb_spec color 3); [subst|]; simpl);
    rewrite ?Z.eqb_refl, ?(Hne r g), ?(Hne r b), ?(Hne g b),
      ?(Hne g r), ?(Hne b r), ?(Hne b g), ?(Hne r other), ?(Hne g other),
      ?(Hne b other) by congruence;
    try reflexivity; try lia.
Qed.

(** X4: with three different pins, after [rgb_turn_on_by_color] the last
    levels written depend on the colour alone, not on what was written
    before: red is 5 for RED and YELLOW and 0 otherwise, green is 170 for
    GREEN, 255 for YELLOW and 0 otherwise, blue is 0; a colour outside the
    three cases therefore switches the LED off.  No other pin is
    written. *)
Theorem rgb_turn_on_by_color_levels (pins : rgb_t) (color : Z)
        (before : option Z) (other : Z) :
  red_pin pins <> green_pin pins ->
  red_pin pins <> blue_pin pins ->
  green_pin pins <> blue_pin pins ->
  level_after (rgb_turn_on_by_color pins color) (red_pin pins) before
    = Some (if (color =? RGB_COLOR_RED) || (color =? RGB_COLOR_YELLOW)
            then 5 else 0) /\
  level_after (rgb_turn_on_by_color pins color) (green_pin pins) before
    = Some (if color =? RGB_COLOR_GREEN then 170
            else if color =? RGB_COLOR_YELLOW then 255 else 0) /\
  level_after (rgb_turn_on_by_color pins color) (blue_pin pins) before = Some 0 /\
  (other <> red_pin pins -> other <> green_pin pins -> other <> blue_pin pins ->
   level_after (rgb_turn_on_by_color pins color) other before = before).
Proof. exact (last_levels_by_color pins color before other). Qed.

Lemma rgb_turn_on_by_color_levels_witness :
  (red_pin board_rgb <> green_pin board_rgb /\
   red_pin board_rgb <> blue_pin board_rgb /\
   green_pin board_rgb <> blue_pin board_rgb) /\
  level_after (rgb_turn_on_by_color board_rgb RGB_COLOR_BLUE) GREEN_PIN (Some 255)
    = Some 0.
Proof.
  assert (H1 : red_pin board_rgb <> green_pin board_rgb) by (vm_compute; discriminate).
  assert (H2 : red_pin board_rgb <> blue_pin board_rgb) by (vm_compute; discriminate).
  assert (H3 : green_pin board_rgb <> blue_pin board_rgb) by (vm_compute; discriminate).
  split; [repeat split; assumption|].
  exact (proj1 (proj2
    (rgb_turn_on_by_color_levels board_rgb RGB_COLOR_BLUE (Some 255) 0 H1 H2 H3))).
Defined.

(** ** The presenters on reachable states *)

Ltac in_day_cycle := repeat (first [left; reflexivity | right]).

Lemma reachable_day_cycle_state (s : system) :
  reachable s -> sys_blink_pc s = BlinkAtDraw ->
  g_semaphore_mode (sys_globals s) = SEMAPHORE_DAILY_MODE ->
  In (sys_globals s) day_cycle_states.
Proof.
  intros Hr Hpc Hm. apply reachable_consistent in Hr.
  destruct s as [[c st col m] pc]. unfold consistent in Hr. simpl in *.
  destruct Hr as (Hst & Hcol & Hc & _ & Hone). specialize (Hone Hpc).
  subst m col.
  destruct Hst as [-> | [-> | ->]];
    [change (semaphore_duration SEMAPHORE_GREEN_STATE) with 9 in Hc
    |change (semaphore_duration SEMAPHORE_YELLOW_STATE) with 3 in Hc
    |change (semaphore_duration SEMAPHORE_RED_STATE) with 6 in Hc].
  - assert (H : c = 9 \/ c = 8 \/ c = 7 \/ c = 6 \/ c = 5 \/ c = 4 \/ c = 3 \/
                c = 2 \/ c = 1) by lia.
    repeat (destruct H as [-> | H]); try subst c; in_day_cycle.
  - assert (H : c = 3 \/ c = 2 \/ c = 1) by lia.
    repeat (destruct H as [-> | H]); try subst c; in_day_cycle.
  - assert (H : c = 6 \/ c = 5 \/ c = 4 \/ c = 3 \/ c = 2 \/ c = 1) by lia.
    repeat (destruct H as [-> | H]); try subst c; in_day_cycle.
Qed.










(** X9: whenever the blink task is about to draw in a state reachable
    from boot, the index it reads [NUMERIC_GLYPHS] at is between 0 and 9:
    the countdown, between 1 and the duration of the state, in day mode
    and 0 in night mode. *)
Theorem vBlinkTask_glyph_index (s : system) :
  reachable s -> sys_blink_pc s = BlinkAtDraw ->
  exists index color,
    fst (vBlinkTask_draw (sys_globals s)) = [ws2812b_draw index color 1] /\
    0 <= index <= 9 /\
    (g_semaphore_mode (sys_globals s) = SEMAPHORE_DAILY_MODE ->
     index = g_semaphore_counter (sys_globals s) /\
     1 <= index <= semaphore_duration (g_sempahore_state (sys_globals s)) /\
     color = StoredLedColor (semaphore_color (g_sempahore_state (sys_globals s)))) /\
    (g_semaphore_mode (sys_globals s) = SEMAPHORE_NIGHT_MODE ->
     index = 0 /\ color = WS2812B_COLOR_YELLOW).
Proof.
  intros Hr Hpc. apply reachable_consistent in Hr.
  destruct s as [[c st col m] pc]. unfold consistent in Hr. simpl in *.
  destruct Hr as (Hst & Hcol & Hc & Hm & Hone). specialize (Hone Hpc).
  assert (Hd : semaphore_duration st <= 9) by (crush_globals; lia).
  unfold vBlinkTask_draw. simpl.
  destruct Hm as [-> | ->]; simpl.
  - exists c, (StoredLedColor col). subst col.
    repeat split; try lia; discriminate.
  - exists 0, WS2812B_COLOR_YELLOW.
    repeat split; try lia; discriminate.
Qed.

Lemma vBlinkTask_glyph_index_witness :
  reachable boot_system /\ sys_blink_pc boot_system = BlinkAtDraw /\
  exists index color,
    fst (vBlinkTask_draw (sys_globals boot_system)) = [ws2812b_draw index color 1] /\
    0 <= index <= 9.
Proof.
  assert (Hboot : reachable boot_system) by (exists []; reflexivity).
  split; [exact Hboot|]. split; [reflexivity|].
  destruct (vBlinkTask_glyph_index boot_system Hboot eq_refl)
    as (index & color & Heq & Hrange & _).
  exists index, color. split; assumption.
Defined.

(** ** Periodicity of the day cycle and the polled button *)

Lemma globals_eqb_eq (g1 g2 : globals) : globals_eqb g1 g2 = true <-> g1 = g2.
Proof.
  destruct g1 as [c1 s1 l1 m1], g2 as [c2 s2 l2 m2]. unfold globals_eqb. simpl.
  rewrite !andb_true_iff, !Z.eqb_eq. split.
  - intros [[[-> ->] ->] ->]. reflexivity.
  - intros H. injection H as -> -> -> ->. auto.
Qed.

Lemma returns_after_spec {A : Type} (eqb : A -> A -> bool) (f : A -> A)
      (period : nat) (x : A) :
  (forall a b, eqb a b = true <-> a = b) ->
  returns_after eqb f period x = true ->
  Nat.iter period f x = x /\
  forall n, (0 < n < period)%nat -> Nat.iter n f x <> x.
Proof.
  intros Heqb H. unfold returns_after in H.
  apply andb_true_iff in H. destruct H as [Hback Hmin]. split.
  - apply Heqb. exact Hback.
  - intros n Hn Heq. rewrite forallb_forall in Hmin.
    assert (Hseq : In n (seq 1 (period - 1))) by (apply in_seq; lia).
    specialize (Hmin n Hseq). apply negb_true_iff in Hmin.
    apply Heqb in Heq. congruence.
Qed.

Lemma day_cycle_states_period :
  forallb (returns_after globals_eqb driver_period 18) day_cycle_states = true.
Proof. vm_compute. reflexivity. Qed.

(** X10: in day mode, from every state reachable from boot in which a
    period is about to start, eighteen periods without a button press
    bring the four variables back to the same values, and no smaller
    positive number of periods does. *)
Theorem day_cycle_period (s : system) (n : nat) :
  reachable s -> sys_blink_pc s = BlinkAtDraw ->
  g_semaphore_mode (sys_globals s) = SEMAPHORE_DAILY_MODE ->
  Nat.iter 18 driver_period (sys_globals s) = sys_globals s /\
  ((0 < n < 18)%nat -> Nat.iter n driver_period (sys_globals s) <> sys_globals s).
Proof.
  intros Hr Hpc Hm.
  pose proof (reachable_day_cycle_state s Hr Hpc Hm) as Hin.
  pose proof (proj1 (forallb_forall _ _) day_cycle_states_period _ Hin) as Hall.
  destruct (returns_after_spec globals_eqb driver_period 18 (sys_globals s)
              globals_eqb_eq Hall) as [H18 Hmin].
  split; [exact H18 | exact (Hmin n)].
Qed.

Lemma day_cycle_period_witness :
  (reachable (run (repeat RunBlink 4) boot_system) /\
   sys_blink_pc (run (repeat RunBlink 4) boot_system) = BlinkAtDraw /\
   g_semaphore_mode (sys_globals (run (repeat RunBlink 4) boot_system))
     = SEMAPHORE_DAILY_MODE /\ (0 < 9 < 18)%nat) /\
  Nat.iter 18 driver_period (sys_globals (run (repeat RunBlink 4) boot_system))
    = sys_globals (run (repeat RunBlink 4) boot_system) /\
  Nat.iter 9 driver_period (sys_globals (run (repeat RunBlink 4) boot_system))
    <> sys_globals (run (repeat RunBlink 4) boot_system).
Proof.
  assert (Hr : reachable (run (repeat RunBlink 4) boot_system))
    by (exists (repeat RunBlink 4); reflexivity).
  assert (Hn : (0 < 9 < 18)%nat) by lia.
  split; [repeat split; try exact Hr; lia|].
  destruct (day_cycle_period (run (repeat RunBlink 4) boot_system) 9 Hr eq_refl eq_refl)
    as [H18 Hmin].
  split; [exact H18 | exact (Hmin Hn)].
Defined.

(** X11: the button task has no edge detection.  With the mode at day or
    night, [n >= 2] consecutive polls that find the button down leave the
    state GREEN with nine seconds and the green colour, in the original
    mode when [n] is even and in the other mode when [n] is odd. *)
Theorem vPushButtonTask_held (g : globals) (n : nat) :
  g_semaphore_mode g = SEMAPHORE_DAILY_MODE \/
  g_semaphore_mode g = SEMAPHORE_NIGHT_MODE ->
  (2 <= n)%nat ->
  Nat.iter n (vPushButtonTask false) g
  = mkGlobals SEMAPHORE_GREEN_DURATION_SEC SEMAPHORE_GREEN_STATE
              SEMAPHORE_LED_COLOR_GREEN
              (if Nat.even n then g_semaphore_mode g else 1 - g_semaphore_mode g).
Proof.
  intros Hm Hn.
  induction n as [|n IH]; [lia|].
  destruct (Nat.eq_dec n 1) as [->|Hn1].
  - destruct g as [c st col m]. simpl in Hm.
    destruct Hm as [-> | ->]; reflexivity.
  - change (Nat.iter (S n) (vPushButtonTask false) g)
      with (vPushButtonTask false (Nat.iter n (vPushButtonTask false) g)).
    rewrite IH by lia. rewrite Nat.even_succ, <- Nat.negb_even.
    destruct Hm as [-> | ->]; destruct (Nat.even n); reflexivity.
Qed.

Lemma vPushButtonTask_held_witness :
  ((g_semaphore_mode (day_state SEMAPHORE_RED_STATE 4) = SEMAPHORE_DAILY_MODE \/
    g_semaphore_mode (day_state SEMAPHORE_RED_STATE 4) = SEMAPHORE_NIGHT_MODE) /\
   (2 <= 3)%nat) /\
  Nat.iter 3 (vPushButtonTask false) (day_state SEMAPHORE_RED_STATE 4)
  = night_state SEMAPHORE_GREEN_STATE 9.
Proof.
  assert (Hm : g_semaphore_mode (day_state SEMAPHORE_RED_STATE 4) = SEMAPHORE_DAILY_MODE \/
               g_semaphore_mode (day_state SEMAPHORE_RED_STATE 4) = SEMAPHORE_NIGHT_MODE)
    by (left; reflexivity).
  assert (Hn : (2 <= 3)%nat) by lia.
  split; [split; assumption|].
  exact (vPushButtonTask_held (day_state SEMAPHORE_RED_STATE 4) 3 Hm Hn).
Defined.

(** ** Loops with an eight-bit counter *)

Lemma in_zrange (a k : Z) (n : nat) :
  In a (zrange k n) <-> k <= a < k + Z.of_nat n.
Proof.
  revert k. induction n as [|n IH]; intros k.
  - simpl. lia.
  - cbn [zrange In]. rewrite IH. lia.
Qed.

Lemma length_zrange (k : Z) (n : nat) : List.length (zrange k n) = n.
Proof.
  revert k. induction n as [|n IH]; intros k; simpl; [reflexivity|].
  rewrite IH. reflexivity.
Qed.

Lemma uint8_wrap_small (z : Z) : 0 <= z < 256 -> uint8_wrap z = z.
Proof. intros H. unfold uint8_wrap. apply Z.mod_small. exact H. Qed.

Lemma uint8_wrap_range (z : Z) : 0 <= uint8_wrap z < 256.
Proof. unfold uint8_wrap. apply Z.mod_pos_bound. lia. Qed.

(** A loop whose bound fits the counter runs the body once for every
    value from the start up to the bound. *)
Lemma for_uint8_runs (g : Z -> list Oledgfx.ssd1306_call)
      (body : Z -> option (list Oledgfx.ssd1306_call)) (bound : Z) (n : nat) :
  forall (fuel : nat) (k : Z),
    0 <= k -> bound <= 255 -> Z.to_nat (bound - k) = n -> (n < fuel)%nat ->
    (forall i, k <= i < bound -> body i = Some (g i)) ->
    Oledgfx.for_uint8 fuel k bound body = Some (flat_map g (zrange k n)).
Proof.
  induction n as [|n IH]; intros fuel k Hk Hb Hn Hfuel Hbody.
  - destruct fuel as [|fuel]; [lia|]. simpl.
    destruct (Z.ltb_spec k bound); [lia|reflexivity].
  - destruct fuel as [|fuel]; [lia|]. cbn [Oledgfx.for_uint8 zrange flat_map].
    destruct (Z.ltb_spec k bound); [|lia].
    rewrite (Hbody k) by lia.
    rewrite uint8_wrap_small by lia.
    rewrite (IH fuel (k + 1)); try lia; [reflexivity|].
    intros i Hi. apply Hbody. lia.
Qed.

(** A loop whose bound exceeds 255 never ends: the counter wraps before
    reaching it. *)
Lemma for_uint8_diverges (body : Z -> option (list Oledgfx.ssd1306_call))
      (bound : Z) :
  256 <= bound ->
  forall (fuel : nat) (k : Z), 0 <= k < 256 ->
    Oledgfx.for_uint8 fuel k bound body = None.
Proof.
  intros Hb. induction fuel as [|fuel IH]; intros k Hk; simpl; [reflexivity|].
  destruct (Z.ltb_spec k bound); [|lia].
  destruct (body k); [|reflexivity].
  rewrite IH by apply uint8_wrap_range. reflexivity.
Qed.

(** Two nested loops that issue one call per pair of counter values. *)
Lemma nested_for_uint8 (mk : Z -> Z -> Oledgfx.ssd1306_call)
      (fuel : nat) (k outer inner : Z) :
  0 <= k -> outer <= 255 -> inner <= 255 ->
  (Z.to_nat (outer - k) < fuel)%nat -> (Z.to_nat inner < fuel)%nat ->
  Oledgfx.for_uint8 fuel k outer
    (fun a => Oledgfx.for_uint8 fuel 0 inner (fun b => Some [mk a b]))
  = Some (grid mk k (Z.to_nat (outer - k)) (Z.to_nat inner)).
Proof.
  intros Hk Ho Hi Hfuel Hfuel'. unfold grid.
  apply for_uint8_runs; try lia.
  intros a _.
  apply (for_uint8_runs (fun b => [mk a b])); try lia.
  intros; reflexivity.
Qed.

Lemma in_grid (mk : Z -> Z -> Oledgfx.ssd1306_call) (c : Oledgfx.ssd1306_call)
      (k : Z) (na nb : nat) :
  In c (grid mk k na nb)
  <-> exists a b, k <= a < k + Z.of_nat na /\ 0 <= b < Z.of_nat nb /\ c = mk a b.
Proof.
  unfold grid. rewrite in_flat_map. split.
  - intros (a & Ha & Hin). apply in_flat_map in Hin.
    destruct Hin as (b & Hb & Hc). apply in_zrange in Ha, Hb.
    destruct Hc as [Hc|[]]. exists a, b. repeat split; try lia. congruence.
  - intros (a & b & Ha & Hb & ->). exists a. split; [apply in_zrange; lia|].
    apply in_flat_map. exists b. split; [apply in_zrange; lia|]. left. reflexivity.
Qed.

Lemma length_grid (mk : Z -> Z -> Oledgfx.ssd1306_call) (k : Z) (na nb : nat) :
  List.length (grid mk k na nb) = (na * nb)%nat.
Proof.
  unfold grid.
  assert (Hrow : forall a, List.length (flat_map (fun b => [mk a b]) (zrange 0 nb)) = nb).
  { intros a. generalize 0. induction nb as [|nb IH]; intros z; simpl; [reflexivity|].
    rewrite IH. reflexivity. }
  revert k. induction na as [|na IH]; intros k; simpl; [reflexivity|].
  rewrite List.length_app, Hrow, IH. reflexivity.
Qed.

(** ** Lines, border and line clearing on the OLED panel *)

Lemma uint8_wrap_neg (z : Z) : -256 <= z < 0 -> uint8_wrap z = z + 256.
Proof.
  intros H. unfold uint8_wrap.
  replace z with ((z + 256) + (-1) * 256) at 1 by lia.
  rewrite Z_mod_plus_full. apply Z.mod_small. lia.
Qed.

Lemma draw_vline_runs (WIDTH HEIGHT : Z) (fuel : nat) (x thickness : Z) :
  0 <= WIDTH <= 255 -> HEIGHT <= 255 -> 0 <= x <= 255 ->
  0 <= thickness <= WIDTH -> (256 <= fuel)%nat ->
  Oledgfx.oledgfx_draw_vline WIDTH HEIGHT fuel x thickness
  = Some (grid column_pixel (Z.min x (WIDTH - thickness))
               (Z.to_nat thickness) (Z.to_nat HEIGHT)).
Proof.
  intros HW HH Hx Ht Hfuel. unfold Oledgfx.oledgfx_draw_vline.
  rewrite Z.gtb_ltb.
  destruct (Z.ltb_spec WIDTH (x + thickness)).
  - rewrite uint8_wrap_small by lia.
    rewrite (nested_for_uint8 column_pixel) by lia.
    rewrite Z.min_r by lia. do 2 f_equal. lia.
  - rewrite (nested_for_uint8 column_pixel) by lia.
    rewrite Z.min_l by lia. do 2 f_equal. lia.
Qed.

Lemma draw_vline_hangs (WIDTH HEIGHT : Z) (fuel : nat) (x thickness : Z) :
  0 <= WIDTH -> 0 <= x -> WIDTH < thickness <= 255 ->
  Oledgfx.oledgfx_draw_vline WIDTH HEIGHT fuel x thickness = None.
Proof.
  intros HW Hx Ht. unfold Oledgfx.oledgfx_draw_vline.
  rewrite Z.gtb_ltb.
  destruct (Z.ltb_spec WIDTH (x + thickness)); [|lia].
  rewrite uint8_wrap_neg by lia.
  apply for_uint8_diverges; lia.
Qed.

Lemma draw_hline_runs (WIDTH HEIGHT : Z) (fuel : nat) (y thickness : Z) :
  WIDTH <= 255 -> 0 <= HEIGHT <= 255 -> 0 <= y <= 255 ->
  0 <= thickness <= HEIGHT -> (256 <= fuel)%nat ->
  Oledgfx.oledgfx_draw_hline WIDTH HEIGHT fuel y thickness
  = Some (grid row_pixel (Z.min y (HEIGHT - thickness))
               (Z.to_nat thickness) (Z.to_nat WIDTH)).
Proof.
  intros HW HH Hy Ht Hfuel. unfold Oledgfx.oledgfx_draw_hline.
  rewrite Z.gtb_ltb.
  destruct (Z.ltb_spec HEIGHT (y + thickness)).
  - rewrite uint8_wrap_small by lia.
    rewrite (nested_for_uint8 row_pixel) by lia.
    rewrite Z.min_r by lia. do 2 f_equal. lia.
  - rewrite (nested_for_uint8 row_pixel) by lia.
    rewrite Z.min_l by lia. do 2 f_equal. lia.
Qed.

Lemma draw_hline_hangs (WIDTH HEIGHT : Z) (fuel : nat) (y thickness : Z) :
  0 <= HEIGHT -> 0 <= y -> HEIGHT < thickness <= 255 ->
  Oledgfx.oledgfx_draw_hline WIDTH HEIGHT fuel y thickness = None.
Proof.
  intros HH Hy Ht. unfold Oledgfx.oledgfx_draw_hline.
  rewrite Z.gtb_ltb.
  destruct (Z.ltb_spec HEIGHT (y + thickness)); [|lia].
  rewrite uint8_wrap_neg by lia.
  apply for_uint8_diverges; lia.
Qed.

Lemma in_column_grid (a b v k : Z) (na nb : nat) :
  In (Oledgfx.ssd1306_pixel a b v) (grid column_pixel k na nb)
  <-> v = 1 /\ k <= a < k + Z.of_nat na /\ 0 <= b < Z.of_nat nb.
Proof.
  rewrite in_grid. unfold column_pixel. split.
  - intros (a' & b' & Ha & Hb & Heq). injection Heq as -> -> ->. lia.
  - intros (-> & Ha & Hb). exists a, b. repeat split; lia.
Qed.

Lemma in_row_grid (a b v k : Z) (na nb : nat) :
  In (Oledgfx.ssd1306_pixel a b v) (grid row_pixel k na nb)
  <-> v = 1 /\ k <= b < k + Z.of_nat na /\ 0 <= a < Z.of_nat nb.
Proof.
  rewrite in_grid. unfold row_pixel. split.
  - intros (a' & b' & Ha & Hb & Heq). injection Heq as -> -> ->. lia.
  - intros (-> & Ha & Hb). exists b, a. repeat split; lia.
Qed.

(** X12: on a panel at most 255 pixels wide, [oledgfx_clear_line] ends
    and writes 0 to exactly the pixels of the eight rows from [line] on,
    column by column, eight calls per column; it does not compare the
    rows with the panel height. *)
Theorem oledgfx_clear_line_pixels (WIDTH : Z) (fuel : nat) (line : Z) :
  0 <= WIDTH <= 255 -> (256 <= fuel)%nat ->
  exists calls,
    Oledgfx.oledgfx_clear_line WIDTH fuel line = Some calls /\
    Z.of_nat (List.length calls) = 8 * WIDTH /\
    forall x y v,
      In (Oledgfx.ssd1306_pixel x y v) calls <->
      v = 0 /\ 0 <= x < WIDTH /\ line <= y < line + 8.
Proof.
  intros HW Hfuel. unfold Oledgfx.oledgfx_clear_line.
  rewrite (nested_for_uint8 (fun x y => Oledgfx.ssd1306_pixel x (y + line) 0))
    by lia.
  eexists. split; [reflexivity|]. split.
  - rewrite length_grid. lia.
  - intros x y v. rewrite in_grid. split.
    + intros (a & b & Ha & Hb & Heq). injection Heq as -> -> ->. lia.
    + intros (-> & Hx & Hy). exists x, (y - line).
      repeat split; try lia. f_equal. lia.
Qed.

Lemma oledgfx_clear_line_pixels_witness :
  (0 <= 128 <= 255 /\ (256 <= 256)%nat) /\
  exists calls,
    Oledgfx.oledgfx_clear_line 128 256 40 = Some calls /\
    Z.of_nat (List.length calls) = 8 * 128.
Proof.
  split; [lia|].
  destruct (oledgfx_clear_line_pixels 128 256 40 ltac:(lia) ltac:(lia))
    as (calls & Heq & Hlen & _).
  exists calls. split; assumption.
Defined.

(** X13: for a panel at most 255 wide and high and 8-bit arguments,
    [oledgfx_draw_vline] with a thickness up to the width ends and
    writes 1 to exactly the full-height columns from
    min(x, WIDTH - thickness) on, [thickness] of them, all inside the
    panel; with a thickness above the width the clamped start wraps
    modulo 256 and the loop never ends, whatever the fuel. *)
Theorem oledgfx_draw_vline_behaviour (WIDTH HEIGHT : Z) (fuel : nat)
        (x thickness : Z) :
  0 <= WIDTH <= 255 -> 0 <= HEIGHT <= 255 ->
  0 <= x <= 255 -> 0 <= thickness <= 255 ->
  (thickness <= WIDTH -> (256 <= fuel)%nat ->
   exists calls,
     Oledgfx.oledgfx_draw_vline WIDTH HEIGHT fuel x thickness = Some calls /\
     Z.of_nat (List.length calls) = thickness * HEIGHT /\
     forall a b v,
       In (Oledgfx.ssd1306_pixel a b v) calls <->
       v = 1 /\
       Z.min x (WIDTH - thickness) <= a < Z.min x (WIDTH - thickness) + thickness /\
       0 <= b < HEIGHT) /\
  (WIDTH < thickness ->
   Oledgfx.oledgfx_draw_vline WIDTH HEIGHT fuel x thickness = None).
Proof.
  intros HW HH Hx Ht. split.
  - intros Hle Hfuel. rewrite draw_vline_runs by lia.
    eexists. split; [reflexivity|]. split.
    + rewrite length_grid. nia.
    + intros a b v. rewrite in_column_grid. lia.
  - intros Hgt. apply draw_vline_hangs; lia.
Qed.

Lemma oledgfx_draw_vline_behaviour_witness :
  (0 <= 128 <= 255 /\ 0 <= 64 <= 255 /\ 0 <= 0 <= 255 /\ 0 <= 200 <= 255 /\
   128 < 200) /\
  Oledgfx.oledgfx_draw_vline 128 64 1000 0 200 = None /\
  ((0 <= 126 <= 255 /\ 0 <= 4 <= 255 /\ 4 <= 128 /\ (256 <= 300)%nat) /\
   exists calls, Oledgfx.oledgfx_draw_vline 128 64 300 126 4 = Some calls /\
                 Z.of_nat (List.length calls) = 4 * 64).
Proof.
  split; [lia|]. split.
  - exact (proj2 (oledgfx_draw_vline_behaviour 128 64 1000 0 200
                    ltac:(lia) ltac:(lia) ltac:(lia) ltac:(lia)) ltac:(lia)).
  - split; [lia|].
    destruct (proj1 (oledgfx_draw_vline_behaviour 128 64 300 126 4
                       ltac:(lia) ltac:(lia) ltac:(lia) ltac:(lia))
                ltac:(lia) ltac:(lia)) as (calls & Heq & Hlen & _).
    exists calls. split; assumption.
Defined.

(** X14: likewise [oledgfx_draw_hline] with a thickness up to the height
    ends and writes 1 to exactly the full-width rows from
    min(y, HEIGHT - thickness) on, and with a thickness above the height
    never ends. *)
Theorem oledgfx_draw_hline_behaviour (WIDTH HEIGHT : Z) (fuel : nat)
        (y thickness : Z) :
  0 <= WIDTH <= 255 -> 0 <= HEIGHT <= 255 ->
  0 <= y <= 255 -> 0 <= thickness <= 255 ->
  (thickness <= HEIGHT -> (256 <= fuel)%nat ->
   exists calls,
     Oledgfx.oledgfx_draw_hline WIDTH HEIGHT fuel y thickness = Some calls /\
     Z.of_nat (List.length calls) = thickness * WIDTH /\
     forall a b v,
       In (Oledgfx.ssd1306_pixel a b v) calls <->
       v = 1 /\ 0 <= a < WIDTH /\
       Z.min y (HEIGHT - thickness) <= b < Z.min y (HEIGHT - thickness) + thickness) /\
  (HEIGHT < thickness ->
   Oledgfx.oledgfx_draw_hline WIDTH HEIGHT fuel y thickness = None).
Proof.
  intros HW HH Hy Ht. split.
  - intros Hle Hfuel. rewrite draw_hline_runs by lia.
    eexists. split; [reflexivity|]. split.
    + rewrite length_grid. nia.
    + intros a b v. rewrite in_row_grid. lia.
  - intros Hgt. apply draw_hline_hangs; lia.
Qed.

Lemma oledgfx_draw_hline_behaviour_witness :
  (0 <= 128 <= 255 /\ 0 <= 64 <= 255 /\ 0 <= 64 <= 255 /\ 0 <= 65 <= 255 /\
   64 < 65) /\
  Oledgfx.oledgfx_draw_hline 128 64 1000 64 65 = None /\
  ((0 <= 2 <= 255 /\ 2 <= 64 /\ (256 <= 300)%nat) /\
   exists calls, Oledgfx.oledgfx_draw_hline 128 64 300 64 2 = Some calls /\
                 Z.of_nat (List.length calls) = 2 * 128).
Proof.
  split; [lia|]. split.
  - exact (proj2 (oledgfx_draw_hline_behaviour 128 64 1000 64 65
                    ltac:(lia) ltac:(lia) ltac:(lia) ltac:(lia)) ltac:(lia)).
  - split; [lia|].
    destruct (proj1 (oledgfx_draw_hline_behaviour 128 64 300 64 2
                       ltac:(lia) ltac:(lia) ltac:(lia) ltac:(lia))
                ltac:(lia) ltac:(lia)) as (calls & Heq & Hlen & _).
    exists calls. split; assumption.
Defined.

Lemma draw_border_runs (WIDTH HEIGHT : Z) (fuel : nat) (thickness : Z) :
  0 <= WIDTH <= 255 -> 0 <= HEIGHT <= 255 ->
  0 <= thickness -> thickness <= WIDTH -> thickness <= HEIGHT ->
  (256 <= fuel)%nat ->
  Oledgfx.oledgfx_draw_border WIDTH HEIGHT fuel thickness
  = Some (grid column_pixel 0 (Z.to_nat thickness) (Z.to_nat HEIGHT) ++
          grid column_pixel (WIDTH - thickness) (Z.to_nat thickness) (Z.to_nat HEIGHT) ++
          grid row_pixel 0 (Z.to_nat thickness) (Z.to_nat WIDTH) ++
          grid row_pixel (HEIGHT - thickness) (Z.to_nat thickness) (Z.to_nat WIDTH)).
Proof.
  intros HW HH Ht HtW HtH Hfuel. unfold Oledgfx.oledgfx_draw_border.
  rewrite !uint8_wrap_small by lia.
  rewrite !draw_vline_runs, !draw_hline_runs by lia.
  rewrite (Z.min_l 0 (WIDTH - thickness)), (Z.min_l 0 (HEIGHT - thickness)),
    (Z.min_r WIDTH), (Z.min_r HEIGHT) by lia.
  reflexivity.
Qed.

(** X15: for a panel at most 255 wide and high, [oledgfx_draw_border]
    with a thickness up to both dimensions ends and writes 1 to exactly
    the pixels of the panel that lie within [thickness] of an edge, in
    2 * thickness * (WIDTH + HEIGHT) calls (the corners more than once);
    with an 8-bit thickness above the width or the height it never
    ends. *)
Theorem oledgfx_draw_border_behaviour (WIDTH HEIGHT : Z) (fuel : nat)
        (thickness : Z) :
  0 <= WIDTH <= 255 -> 0 <= HEIGHT <= 255 -> 0 <= thickness <= 255 ->
  (thickness <= WIDTH -> thickness <= HEIGHT -> (256 <= fuel)%nat ->
   exists calls,
     Oledgfx.oledgfx_draw_border WIDTH HEIGHT fuel thickness = Some calls /\
     Z.of_nat (List.length calls) = 2 * thickness * (WIDTH + HEIGHT) /\
     forall a b v,
       In (Oledgfx.ssd1306_pixel a b v) calls <->
       v = 1 /\ 0 <= a < WIDTH /\ 0 <= b < HEIGHT /\
       (a < thickness \/ WIDTH - thickness <= a \/
        b < thickness \/ HEIGHT - thickness <= b)) /\
  (WIDTH < thickness \/ HEIGHT < thickness ->
   Oledgfx.oledgfx_draw_border WIDTH HEIGHT fuel thickness = None).
Proof.
  intros HW HH Ht. split.
  - intros HtW HtH Hfuel. rewrite draw_border_runs by lia.
    eexists. split; [reflexivity|]. split.
    + rewrite !List.length_app, !length_grid. nia.
    + intros a b v.
      rewrite !in_app_iff, !in_column_grid, !in_row_grid. lia.
  - intros Hbig. unfold Oledgfx.oledgfx_draw_border.
    destruct (Z.lt_ge_cases WIDTH thickness) as [HWt|HWt].
    + rewrite draw_vline_hangs by lia. reflexivity.
    + assert (HHt : HEIGHT < thickness) by lia.
      rewrite (draw_hline_hangs WIDTH HEIGHT fuel 0 thickness) by lia.
      unfold Oledgfx.and_then.
      destruct (Oledgfx.oledgfx_draw_vline WIDTH HEIGHT fuel 0 thickness);
        [|reflexivity].
      destruct (Oledgfx.oledgfx_draw_vline WIDTH HEIGHT fuel
                  (uint8_wrap WIDTH) thickness); reflexivity.
Qed.

Lemma oledgfx_draw_border_behaviour_witness :
  ((0 <= 128 <= 255 /\ 0 <= 64 <= 255 /\ 0 <= 2 <= 255 /\ 2 <= 128 /\ 2 <= 64 /\
    (256 <= 256)%nat) /\
   exists calls, Oledgfx.oledgfx_draw_border 128 64 256 2 = Some calls /\
                 Z.of_nat (List.length calls) = 2 * 2 * (128 + 64)) /\
  ((0 <= 100 <= 255 /\ (128 < 100 \/ 64 < 100)) /\
   Oledgfx.oledgfx_draw_border 128 64 256 100 = None).
Proof.
  split.
  - split; [lia|].
    destruct (proj1 (oledgfx_draw_border_behaviour 128 64 256 2
                       ltac:(lia) ltac:(lia) ltac:(lia))
                ltac:(lia) ltac:(lia) ltac:(lia)) as (calls & Heq & Hlen & _).
    exists calls. split; assumption.
  - split; [lia|].
    exact (proj2 (oledgfx_draw_border_behaviour 128 64 256 100
                    ltac:(lia) ltac:(lia) ltac:(lia)) ltac:(lia)).
Defined.

(** ** The cursor *)

Lemma toggle_cursor_runs (fuel : nat) (x y state : Z) :
  (9 <= fuel)%nat ->
  Oledgfx.oledgfx_toggle_cursor fuel x y state
  = Some (grid (cursor_pixel x y state) 0 8 8).
Proof.
  intros Hfuel. unfold Oledgfx.oledgfx_toggle_cursor.
  rewrite (nested_for_uint8 (cursor_pixel x y state)) by lia.
  reflexivity.
Qed.

Lemma uint8_of_int8 (x : Z) : 0 <= x <= 255 -> uint8_wrap (Oledgfx.int8_wrap x) = x.
Proof.
  intros Hx. unfold Oledgfx.int8_wrap.
  destruct (Z.lt_ge_cases x 128).
  - rewrite (Z.mod_small (x + 128)) by lia.
    rewrite uint8_wrap_small by lia. lia.
  - replace (x + 128) with ((x - 128) + 1 * 256) by lia.
    rewrite Z_mod_plus_full, Z.mod_small by lia.
    rewrite uint8_wrap_neg by lia. lia.
Qed.

(** X16: after [oledgfx_draw_cursor] at an 8-bit position, a call of
    [oledgfx_update_cursor] first writes 0 to exactly the 64 pixels that
    the draw wrote 1 to, in the same order, and then writes what a draw at
    the new position writes; the remembered position survives its storage
    in a signed byte, also for coordinates of 128 and more. *)
Theorem oledgfx_update_cursor_erases_last (fuel : nat) (x y x' y' : Z)
        (cur0 : Oledgfx.cursor) :
  0 <= x <= 255 -> 0 <= y <= 255 -> (9 <= fuel)%nat ->
  exists drawn cur1 drawn' cur2,
    Oledgfx.oledgfx_draw_cursor fuel x y cur0 = Some (drawn, cur1) /\
    Oledgfx.oledgfx_draw_cursor fuel x' y' cur1 = Some (drawn', cur2) /\
    Oledgfx.oledgfx_update_cursor fuel x' y' cur1
      = Some (map (with_value 0) drawn ++ drawn', cur2) /\
    List.length drawn = 64%nat /\
    (forall a b v, In (Oledgfx.ssd1306_pixel a b v) drawn <->
                   v = 1 /\ x <= a < x + 8 /\ y <= b < y + 8).
Proof.
  intros Hx Hy Hfuel.
  unfold Oledgfx.oledgfx_draw_cursor, Oledgfx.oledgfx_update_cursor.
  cbn [Oledgfx.last_cursor_x Oledgfx.last_cursor_y].
  rewrite !toggle_cursor_runs by exact Hfuel.
  do 4 eexists.
  split; [reflexivity|]. split; [reflexivity|].
  cbn [Oledgfx.last_cursor_x Oledgfx.last_cursor_y].
  rewrite !uint8_of_int8 by assumption.
  rewrite toggle_cursor_runs by exact Hfuel.
  split; [reflexivity|]. split; [reflexivity|].
  intros a b v. rewrite in_grid. unfold cursor_pixel. split.
  - intros (i & j & Hi & Hj & Heq). injection Heq as -> -> ->. lia.
  - intros (-> & Ha & Hb). exists (a - x), (b - y).
    repeat split; try lia. f_equal; lia.
Qed.

Lemma oledgfx_update_cursor_erases_last_witness :
  (0 <= 200 <= 255 /\ 0 <= 40 <= 255 /\ (9 <= 9)%nat) /\
  exists drawn cur1 drawn' cur2,
    Oledgfx.oledgfx_draw_cursor 9 200 40 (Oledgfx.mkCursor (-1) (-1))
      = Some (drawn, cur1) /\
    Oledgfx.oledgfx_update_cursor 9 8 8 cur1
      = Some (map (with_value 0) drawn ++ drawn', cur2).
Proof.
  split; [lia|].
  destruct (oledgfx_update_cursor_erases_last 9 200 40 8 8
              (Oledgfx.mkCursor (-1) (-1)) ltac:(lia) ltac:(lia) ltac:(lia))
    as (drawn & cur1 & drawn' & cur2 & H1 & _ & H3 & _).
  exists drawn, cur1, drawn', cur2. split; assumption.
Defined.

(** ** Counting lit pixels *)

Lemma bits_sum_zero (k : Z) (n : nat) :
  list_sum_Z (map (fun i => Z.b2z (Z.testbit 0 i)) (zrange k n)) = 0.
Proof.
  revert k. induction n as [|n IH]; intros k; simpl; [reflexivity|].
  rewrite IH, Z.bits_0. reflexivity.
Qed.

Lemma bits_sum_shift (byte k : Z) (n : nat) :
  0 <= k ->
  list_sum_Z (map (fun i => Z.b2z (Z.testbit (Z.shiftr byte 1) i)) (zrange k n))
  = list_sum_Z (map (fun i => Z.b2z (Z.testbit byte i)) (zrange (k + 1) n)).
Proof.
  revert k. induction n as [|n IH]; intros k Hk; simpl; [reflexivity|].
  rewrite IH by lia. rewrite Z.shiftr_spec by lia. reflexivity.
Qed.

Lemma bits_sum_bounds (byte k : Z) (n : nat) :
  0 <= list_sum_Z (map (fun i => Z.b2z (Z.testbit byte i)) (zrange k n))
    <= Z.of_nat n.
Proof.
  revert k. induction n as [|n IH]; intros k; simpl list_sum_Z; [simpl; lia|].
  specialize (IH (k + 1)).
  destruct (Z.testbit byte k); simpl Z.b2z; lia.
Qed.

Lemma land_1_bit0 (byte : Z) : Z.land byte 1 = Z.b2z (Z.testbit byte 0).
Proof.
  change 1 with (Z.ones 1). rewrite Z.land_ones by lia.
  rewrite Z.bit0_mod. reflexivity.
Qed.

Lemma uint16_wrap_add_l (a b : Z) :
  uint16_wrap (uint16_wrap a + b) = uint16_wrap (a + b).
Proof. unfold uint16_wrap. apply Zplus_mod_idemp_l. Qed.

(** The [while] loop on a byte below [2^n] ends within [n] shifts and adds
    the number of its one bits. *)
Lemma count_byte_spec (n : nat) :
  forall (fuel : nat) (byte count : Z),
    0 <= byte < 2 ^ Z.of_nat n -> is_uint16 count -> (n < fuel)%nat ->
    Oledgfx.count_byte fuel byte count
    = Some (uint16_wrap
              (count + list_sum_Z (map (fun i => Z.b2z (Z.testbit byte i))
                                       (zrange 0 n)))).
Proof.
  induction n as [|n IH]; intros fuel byte count Hb Hc Hfuel;
    (destruct fuel as [|fuel]; [lia|]); cbn [Oledgfx.count_byte].
  - assert (byte = 0) by (change (2 ^ Z.of_nat 0) with 1 in Hb; lia). subst byte.
    simpl. rewrite Z.add_0_r, uint16_wrap_small by exact Hc. reflexivity.
  - destruct (Z.eqb_spec byte 0) as [->|Hnz].
    + rewrite bits_sum_zero, Z.add_0_r, uint16_wrap_small by exact Hc. reflexivity.
    + rewrite IH.
      * rewrite uint16_wrap_add_l, land_1_bit0. cbn [zrange map list_sum_Z fold_right].
        rewrite bits_sum_shift by lia. do 2 f_equal. unfold list_sum_Z. lia.
      * rewrite Z.shiftr_div_pow2 by lia. change (2 ^ 1) with 2.
        rewrite Nat2Z.inj_succ, Z.pow_succ_r in Hb by lia.
        split; [apply Z.div_pos; lia|apply Z.div_lt_upper_bound; lia].
      * apply uint16_wrap_range.
      * lia.
Qed.

Lemma lit_pixels_bounds (ram_buffer : list Z) :
  0 <= lit_pixels ram_buffer <= 8 * Z.of_nat (List.length ram_buffer).
Proof.
  unfold lit_pixels. induction ram_buffer as [|byte rest IH].
  - simpl. lia.
  - cbn [map list_sum_Z fold_right List.length].
    fold (list_sum_Z (map lit_bits rest)).
    pose proof (bits_sum_bounds byte 0 8) as Hb. fold (lit_bits byte) in Hb.
    lia.
Qed.

Lemma count_buffer_spec (fuel : nat) (ram_buffer : list Z) :
  (9 <= fuel)%nat -> Forall is_uint8 ram_buffer ->
  forall count, is_uint16 count ->
    Oledgfx.count_buffer fuel ram_buffer count
    = Some (uint16_wrap (count + lit_pixels ram_buffer)).
Proof.
  intros Hfuel Hall. induction Hall as [|byte rest Hbyte Hrest IH]; intros count Hc.
  - simpl. unfold lit_pixels. simpl.
    rewrite Z.add_0_r, uint16_wrap_small by exact Hc. reflexivity.
  - cbn [Oledgfx.count_buffer].
    rewrite (count_byte_spec 8)
      by first [exact Hc
               | unfold is_uint8 in Hbyte; change (2 ^ Z.of_nat 8) with 256; lia].
    fold (lit_bits byte). rewrite IH by apply uint16_wrap_range.
    rewrite uint16_wrap_add_l. f_equal. f_equal.
    unfold lit_pixels. simpl. lia.
Qed.

(** X17: on a buffer of bytes, [oledgfx_count_lit_pixels] returns the
    number of one bits in the buffer reduced modulo 65536, the inner loop
    needing at most eight shifts per byte; the number is at most eight
    times the length, so for fewer than 8192 bytes, as in the 1024-byte
    buffer of the panel, the count is exact. *)
Theorem oledgfx_count_lit_pixels_counts (fuel : nat) (ram_buffer : list Z) :
  Forall is_uint8 ram_buffer -> (9 <= fuel)%nat ->
  Oledgfx.oledgfx_count_lit_pixels fuel ram_buffer
    = Some (lit_pixels ram_buffer mod 65536) /\
  0 <= lit_pixels ram_buffer <= 8 * Z.of_nat (List.length ram_buffer) /\
  (Z.of_nat (List.length ram_buffer) < 8192 ->
   Oledgfx.oledgfx_count_lit_pixels fuel ram_buffer = Some (lit_pixels ram_buffer)).
Proof.
  intros Hall Hfuel.
  assert (Hrun : Oledgfx.oledgfx_count_lit_pixels fuel ram_buffer
                 = Some (lit_pixels ram_buffer mod 65536)).
  { unfold Oledgfx.oledgfx_count_lit_pixels.
    rewrite count_buffer_spec; try assumption; [reflexivity|].
    unfold is_uint16. lia. }
  pose proof (lit_pixels_bounds ram_buffer) as Hb.
  split; [exact Hrun|]. split; [exact Hb|].
  intros Hlen. rewrite Hrun, Z.mod_small by lia. reflexivity.
Qed.

Lemma oledgfx_count_lit_pixels_counts_witness :
  (Forall is_uint8 [255; 1; 0; 128] /\ (9 <= 9)%nat /\
   Z.of_nat (List.length [255; 1; 0; 128]) < 8192) /\
  Oledgfx.oledgfx_count_lit_pixels 9 [255; 1; 0; 128] = Some (lit_pixels [255; 1; 0; 128]).
Proof.
  assert (Hall : Forall is_uint8 [255; 1; 0; 128])
    by (repeat constructor; unfold is_uint8; lia).
  assert (Hlen : Z.of_nat (List.length [255; 1; 0; 128]) < 8192) by (simpl; lia).
  split; [repeat split; try assumption; lia|].
  exact (proj2 (proj2
    (oledgfx_count_lit_pixels_counts 9 [255; 1; 0; 128] Hall ltac:(lia))) Hlen).
Defined.
